(** * StackOverflow survey cleaning notebook: a shallow embedding

    The program is the notebook
    [1.0 Download and clean the StackOverflow 2017 survey data.ipynb]
    (Python 2 kernel).  Its code cells, numbered by their execution
    count, are embedded below in the order in which the notebook runs
    them (cell 3, which only lists the workspace directory, is left out):

    - the two cell-level cleaning functions [update_multi_label_cols]
      and [convert_to_ascii];
    - the column table ([single_label_cols], [multi_label_cols],
      [numerical_cols], [key_cols], [target_col]) and the column-count
      [assert];
    - [cleanup_df], which rewrites columns of the data frame in place;
    - the loops that build [schema] and [transforms];
    - the whole notebook as a sequence of cells that logs what it
      prints, reads and writes, and stops at the first exception. *)

From Stdlib Require Import Ascii String List ZArith Bool Lia.
From Stdlib Require Import Floats.PrimFloat.
From stdpp Require Import base option list gmap strings.

Local Open Scope string_scope.
Local Open Scope list_scope.

(** Python reads [3.14] as the nearest binary64 value, as the float
    literals below do. *)
#[local] Set Warnings "-inexact-float".

(** ** Python values and exceptions *)

(** The cells of a pandas column read by [read_csv] are Python 2 byte
    strings ([str]), floats (among them the NaN that marks a missing
    cell) or integers. *)
Inductive pyvalue : Type :=
| PyStr (s : string)
| PyFloat (f : float)
| PyInt (n : Z).

(** Python's [type(v)]. *)
Inductive pytype : Type := TStr | TFloat | TInt.

Definition type_of (v : pyvalue) : pytype :=
  match v with
  | PyStr _ => TStr
  | PyFloat _ => TFloat
  | PyInt _ => TInt
  end.

(** The exceptions the notebook's statements can raise. *)
Inductive exn : Type :=
| AttributeError (attr : string)
| AssertionError
| IOError (path : string)
| StopIteration
| IndexError
| KeyError (key : string)
| ValueError
| UnicodeDecodeError.

Inductive result (A : Type) : Type :=
| Ok (a : A)
| Raise (e : exn).
Arguments Ok {A} a.
Arguments Raise {A} e.

Definition rbind {A B} (r : result A) (k : A -> result B) : result B :=
  match r with
  | Ok a => k a
  | Raise e => Raise e
  end.

(** [[f(x) for x in l]], stopping at the first exception. *)
Fixpoint mapM {A B} (f : A -> result B) (l : list A) : result (list B) :=
  match l with
  | [] => Ok []
  | x :: l' =>
      rbind (f x) (fun y => rbind (mapM f l') (fun ys => Ok (y :: ys)))
  end.

(** ** Python 2 byte strings *)

Module PyString.

(** [s.startswith(p)] *)
Fixpoint startswith (p s : string) : bool :=
  match p, s with
  | EmptyString, _ => true
  | String a p', String b s' => Ascii.eqb a b && startswith p' s'
  | String _ _, EmptyString => false
  end.

(** [c in s] for a one-character [c]. *)
Fixpoint contains (c : ascii) (s : string) : bool :=
  match s with
  | EmptyString => false
  | String b s' => Ascii.eqb c b || contains c s'
  end.

(** The scan of [str.replace] for a non-empty [old]: left to right, at
    each position where [old] starts, [new] is emitted and the scan
    resumes after the match ([skip] counts the characters of the match
    that are still to be passed over); any other character is copied. *)
Fixpoint replace_from (old new : string) (skip : nat) (s : string) : string :=
  match s with
  | EmptyString => EmptyString
  | String c s' =>
      match skip with
      | S k => replace_from old new k s'
      | O =>
          if startswith old s
          then new ++ replace_from old new (String.length old - 1) s'
          else String c (replace_from old new 0 s')
      end
  end.

(** With an empty [old], Python puts [new] before every character and
    at the end. *)
Fixpoint intersperse (new s : string) : string :=
  match s with
  | EmptyString => new
  | String c s' => new ++ String c (intersperse new s')
  end.

(** [s.replace(old, new)] *)
Definition replace (old new s : string) : string :=
  match old with
  | EmptyString => intersperse new s
  | String _ _ => replace_from old new 0 s
  end.

(** Python 2's [filter(f, s)] on a [str] returns a [str]. *)
Fixpoint filter (f : ascii -> bool) (s : string) : string :=
  match s with
  | EmptyString => EmptyString
  | String c s' => if f c then String c (filter f s') else filter f s'
  end.

Fixpoint map (f : ascii -> ascii) (s : string) : string :=
  match s with
  | EmptyString => EmptyString
  | String c s' => String (f c) (map f s')
  end.

(** The character map that turns [a] into [b]. *)
Definition subst_char (a b c : ascii) : ascii :=
  if Ascii.eqb a c then b else c.

Fixpoint forallb (f : ascii -> bool) (s : string) : bool :=
  match s with
  | EmptyString => true
  | String c s' => f c && forallb f s'
  end.

(** [s.split(sep)] for a non-empty [sep], with the same scan as
    [replace_from]; [cur] is the piece being collected. *)
Fixpoint split_from (sep : string) (skip : nat) (cur s : string) : list string :=
  match s with
  | EmptyString => [cur]
  | String c s' =>
      match skip with
      | S k => split_from sep k cur s'
      | O =>
          if startswith sep s
          then cur :: split_from sep (String.length sep - 1) EmptyString s'
          else split_from sep 0 (cur ++ String c EmptyString) s'
      end
  end.

Definition split (sep s : string) : list string := split_from sep 0 EmptyString s.

(** [sep.join(l)] *)
Fixpoint join (sep : string) (l : list string) : string :=
  match l with
  | [] => EmptyString
  | [x] => x
  | x :: l' => x ++ sep ++ join sep l'
  end.

(** Python 2.7's [string] module constants. *)
Definition digits : string := "0123456789".
Definition lowercase : string := "abcdefghijklmnopqrstuvwxyz".
Definition uppercase : string := "ABCDEFGHIJKLMNOPQRSTUVWXYZ".
Definition letters : string := lowercase ++ uppercase.
Definition punctuation : string :=
  "!" ++ String (ascii_of_nat 34) "#$%&'()*+,-./:;<=>?@[\]^_`{|}~".
Definition whitespace : string :=
  String (ascii_of_nat 9) (String (ascii_of_nat 10) (String (ascii_of_nat 11)
    (String (ascii_of_nat 12) (String (ascii_of_nat 13) " ")))).
Definition printable : string := digits ++ letters ++ punctuation ++ whitespace.

End PyString.

(** ** The cell-level cleaning functions (notebook cell 9) *)

(** [[
def update_multi_label_cols(v):
    if isinstance(v, float):
      return v
    v = v.replace('; ', ';')
    v = v.replace(' ', '_')
    v = v.replace(';', ' ')
    return v
]]
    An [int] is not a [float] and has no [replace] attribute, so the
    first [v.replace] raises [AttributeError]. *)
Definition update_multi_label_cols (v : pyvalue) : result pyvalue :=
  match v with
  | PyFloat _ => Ok v
  | PyStr s =>
      let v1 := PyString.replace "; " ";" s in
      let v2 := PyString.replace " " "_" v1 in
      let v3 := PyString.replace ";" " " v2 in
      Ok (PyStr v3)
  | PyInt _ => Raise (AttributeError "replace")
  end.

(** [x in set(string.printable)] *)
Definition in_printable (x : ascii) : bool :=
  PyString.contains x PyString.printable.

(** [[
def convert_to_ascii(v):
    if isinstance(v, (float, int)):
      return v
    return filter(lambda x: x in set(string.printable), v)
]] *)
Definition convert_to_ascii (v : pyvalue) : result pyvalue :=
  match v with
  | PyFloat _ | PyInt _ => Ok v
  | PyStr s => Ok (PyStr (PyString.filter in_printable s))
  end.


(** ** The column table (notebook cells 10 and 11) *)

(** The module-level lists the notebook fills with [append], and
    [target_col], which is [None] until it is assigned. *)
Record columns : Type := {
  single_label_cols : list string;
  numerical_cols : list string;
  multi_label_cols : list string;
  key_cols : list string;
  target_col : option string
}.

(** The table as cell 11 leaves it. *)
Module SurveyTable.

Definition single_label_cols : list string :=
  ["ProgramHobby"; "Country"; "University"; "EmploymentStatus";
   "FormalEducation"; "MajorUndergrad"; "HomeRemote"; "CompanySize";
   "CompanyType"; "YearsProgram"; "YearsCodedJob"; "YearsCodedJobPast";
   "WebDeveloperType"; "ExCoderReturn"; "ExCoderNotForMe";
   "ExCoderBalance"; "ExCoder10Years"; "ExCoderBelonged"; "ExCoderSkills";
   "ExCoderWillNotCode"; "ExCoderActive"; "PronounceGIF"; "ProblemSolving";
   "BuildingThings"; "LearningNewTech"; "BoringDetails"; "JobSecurity";
   "DiversityImportant"; "AnnoyingUI"; "FriendsDevelopers";
   "RightWrongWay"; "UnderstandComputers"; "SeriousWork";
   "InvestTimeTools"; "WorkPayCare"; "KinshipDevelopers";
   "ChallengeMyself"; "CompetePeers"; "ChangeWorld"; "JobSeekingStatus";
   "LastNewJob"; "AssessJobIndustry"; "AssessJobRole"; "AssessJobExp";
   "AssessJobDept"; "AssessJobTech"; "AssessJobProjects";
   "AssessJobCompensation"; "AssessJobOffice"; "AssessJobCommute";
   "AssessJobRemote"; "AssessJobLeaders"; "AssessJobProfDevel";
   "AssessJobDiversity"; "AssessJobProduct"; "AssessJobFinances";
   "ClickyKeys"; "ResumePrompted"; "LearnedHiring";
   "ImportantHiringAlgorithms"; "ImportantHiringTechExp";
   "ImportantHiringCommunication"; "ImportantHiringOpenSource";
   "ImportantHiringPMExp"; "ImportantHiringCompanies";
   "ImportantHiringTitles"; "ImportantHiringEducation";
   "ImportantHiringRep"; "ImportantHiringGettingThingsDone"; "Currency";
   "Overpaid"; "TabsSpaces"; "EducationImportant"; "TimeAfterBootcamp";
   "WorkStart"; "AuditoryEnvironment"; "VersionControl"; "CheckInCode";
   "ShipIt"; "OtherPeoplesCode"; "ProjectManagement"; "EnjoyDebugging";
   "InTheZone"; "DifficultCommunication"; "CollaborateRemote";
   "EquipmentSatisfiedMonitors"; "EquipmentSatisfiedCPU";
   "EquipmentSatisfiedRAM"; "EquipmentSatisfiedStorage";
   "EquipmentSatisfiedRW"; "InfluenceInternet"; "InfluenceWorkstation";
   "InfluenceHardware"; "InfluenceServers"; "InfluenceTechStack";
   "InfluenceDeptTech"; "InfluenceVizTools"; "InfluenceDatabase";
   "InfluenceCloud"; "InfluenceConsultants"; "InfluenceRecruitment";
   "InfluenceCommunication"; "StackOverflowDescribes";
   "StackOverflowFoundAnswer"; "StackOverflowCopiedCode";
   "StackOverflowJobListing"; "StackOverflowCompanyPage";
   "StackOverflowJobSearch"; "StackOverflowNewQuestion";
   "StackOverflowAnswer"; "StackOverflowMetaChat";
   "StackOverflowAdsRelevant"; "StackOverflowAdsDistracting";
   "StackOverflowModeration"; "StackOverflowCommunity";
   "StackOverflowHelpful"; "StackOverflowBetter"; "StackOverflowWhatDo";
   "StackOverflowMakeMoney"; "Gender"; "HighestEducationParents";
   "SurveyLong"; "QuestionsInteresting"; "QuestionsConfusing";
   "InterestedAnswers"].

Definition numerical_cols : list string :=
  ["CareerSatisfaction"; "JobSatisfaction"; "HoursPerWeek";
   "StackOverflowSatisfaction"; "Salary"; "ExpectedSalary"].

Definition multi_label_cols : list string :=
  ["DeveloperType"; "MobileDeveloperType"; "NonDeveloperType";
   "ImportantBenefits"; "JobProfile"; "EducationTypes"; "SelfTaughtTypes";
   "CousinEducation"; "HaveWorkedLanguage"; "WantWorkLanguage";
   "HaveWorkedFramework"; "WantWorkFramework"; "HaveWorkedDatabase";
   "WantWorkDatabase"; "HaveWorkedPlatform"; "WantWorkPlatform"; "IDE";
   "Methodology"; "MetricAssess"; "StackOverflowDevices"; "Race"].

Definition key_cols : list string :=
  ["Respondent"].

Definition target_col : option string := Some "Professional".

End SurveyTable.

Definition survey_columns : columns := {|
  single_label_cols := SurveyTable.single_label_cols;
  numerical_cols := SurveyTable.numerical_cols;
  multi_label_cols := SurveyTable.multi_label_cols;
  key_cols := SurveyTable.key_cols;
  target_col := SurveyTable.target_col
|}.

(** [h in l] on a Python list of strings. *)
Definition py_in (h : string) (l : list string) : bool :=
  existsb (String.eqb h) l.

(** [h == target_col] *)
Definition is_target (c : columns) (h : string) : bool :=
  match target_col c with
  | Some t => String.eqb h t
  | None => false
  end.

(** ** The column-count check (notebook cell 12) *)

(** [single_label_cols + multi_label_cols + numerical_cols + key_cols + [target_col]] *)
Definition all_columns (c : columns) : list (option string) :=
  List.map Some (single_label_cols c) ++ List.map Some (multi_label_cols c)
  ++ List.map Some (numerical_cols c) ++ List.map Some (key_cols c)
  ++ [target_col c].

(** [[
# Check we didn't miss a column
assert len(single_label_cols + multi_label_cols + numerical_cols + key_cols + [target_col]) == len(headers)
]] *)
Definition check_column_count (c : columns) (headers : list string) : result unit :=
  if Nat.eqb (length (all_columns c)) (length headers)
  then Ok tt
  else Raise AssertionError.

(** ** The data frame and [cleanup_df] (notebook cell 13) *)

(** A data frame: its labelled columns in order, each the list of its
    cells in row order. *)
Definition DataFrame : Type := list (string * list pyvalue).

Definition column_names (df : DataFrame) : list string := List.map fst df.

(** [df[col]] *)
Fixpoint getitem (df : DataFrame) (col : string) : result (list pyvalue) :=
  match df with
  | [] => Raise (KeyError col)
  | (name, cells) :: df' =>
      if String.eqb name col then Ok cells else getitem df' col
  end.

(** [df[col] = cells] for a column the frame has. *)
Fixpoint setitem (df : DataFrame) (col : string) (cells : list pyvalue) : DataFrame :=
  match df with
  | [] => []
  | (name, old) :: df' =>
      if String.eqb name col then (name, cells) :: df'
      else (name, old) :: setitem df' col cells
  end.

(** Statements that update the frame in place and may raise: the frame
    after the statement is returned in both cases. *)
Definition stmt : Type := DataFrame -> DataFrame * result unit.

Definition skip : stmt := fun df => (df, Ok tt).

Definition and_then (s1 s2 : stmt) : stmt :=
  fun df =>
    match s1 df with
    | (df1, Ok _) => s2 df1
    | (df1, Raise e) => (df1, Raise e)
    end.

Declare Scope stmt_scope.
Delimit Scope stmt_scope with stmt.
Bind Scope stmt_scope with stmt.
Notation "s1 ;; s2" := (and_then s1 s2)
  (at level 100, s2 at level 200, right associativity) : stmt_scope.

Definition when (b : bool) (s : stmt) : stmt := if b then s else skip.

Fixpoint for_each {A} (l : list A) (body : A -> stmt) : stmt :=
  match l with
  | [] => skip
  | x :: l' => (body x ;; for_each l' body)%stmt
  end.

(** [df[col] = df[col].apply(f)]: the right-hand side is evaluated
    first, so the frame is only assigned to when no cell raises. *)
Definition assign_apply (col : string) (f : pyvalue -> result pyvalue) : stmt :=
  fun df =>
    match rbind (getitem df col) (mapM f) with
    | Ok cells => (setitem df col cells, Ok tt)
    | Raise e => (df, Raise e)
    end.

(** [[
def cleanup_df(df):
    for col in headers:
        if col == 'Currency':
            df[col] = df[col].apply(convert_to_ascii)
        if col == 'Race':
            df[col] = df[col].apply(convert_to_ascii)
        if col in multi_label_cols:
            df[col] = df[col].apply(update_multi_label_cols)
]] *)
Definition cleanup_df (c : columns) (headers : list string) : stmt :=
  for_each headers (fun col =>
    (when (String.eqb col "Currency") (assign_apply col convert_to_ascii) ;;
     when (String.eqb col "Race") (assign_apply col convert_to_ascii) ;;
     when (py_in col (multi_label_cols c))
       (assign_apply col update_multi_label_cols))%stmt).

(** ** Schema and transforms (notebook cells 17 and 18) *)

(** [{'name': h, 'type': t}] *)
Record schema_entry : Type := { name : string; type : string }.

(** The body of the schema loop. *)
Definition schema_entry_of (c : columns) (h : string) : schema_entry :=
  if py_in h (numerical_cols c) then {| name := h; type := "FLOAT" |}
  else if py_in h (key_cols c) then {| name := h; type := "INTEGER" |}
  else {| name := h; type := "STRING" |}.

(** [[
schema = []
for h in headers:
    entry = {'name': h}
    ...
    schema.append(entry)
]] *)
Fixpoint build_schema (c : columns) (headers : list string)
    (schema : list schema_entry) : list schema_entry :=
  match headers with
  | [] => schema
  | h :: hs => build_schema c hs (schema ++ [schema_entry_of c h])
  end.

(** The [if]/[elif] chain of the transforms loop; [None] is the [else]
    branch that prints and breaks. *)
Definition transform_of (c : columns) (h : string) : option string :=
  if py_in h (numerical_cols c) then Some "scale"
  else if py_in h (key_cols c) then Some "key"
  else if is_target c h then Some "target"
  else if py_in h (multi_label_cols c) then Some "bag_of_words"
  else if py_in h (single_label_cols c) then Some "one_hot"
  else None.

(** [[
transforms = {}
for h in headers:
    ...
    else:
        print('Error: %s is an unknown label' % h)
        break
    transforms[h] = {'transform': transform}
]]
    The result is the dictionary when the loop ends (each value stands
    for [{'transform': value}]) and the lines printed. *)
Fixpoint build_transforms (c : columns) (headers : list string)
    (transforms : gmap string string) : gmap string string * list string :=
  match headers with
  | [] => (transforms, [])
  | h :: hs =>
      match transform_of c h with
      | Some t => build_transforms c hs (<[h := t]> transforms)
      | None => (transforms, [("Error: " ++ h ++ " is an unknown label")%string])
      end
  end.

(** ** The notebook as a run (cells 2 to 18, top to bottom) *)

(** What a run does to the outside: lines printed, the directory made,
    files opened for reading and files written.  [EvWrite p a] is a
    [with open(p, 'w')] block or a [to_csv]: the file [p] is created or
    emptied and left holding [a], which is [EmptyFile] when the block
    raises before its [write]. *)
Inductive artifact : Type :=
| Csv (df : DataFrame)
| SchemaJson (schema : list schema_entry)
| TransformsJson (transforms : gmap string string)
| EmptyFile.

Inductive event : Type :=
| EvPrint (line : string)
| EvMkdir (path : string)
| EvRead (path : string)
| EvWrite (path : string) (content : artifact).

(** The outside a run depends on: the two input files when they exist,
    and for each row whether its draw [random.random()] is below [0.8].
    The schema file is given as the rows [csv.reader] yields.  The
    results file is given as what pandas makes of it: for each list of
    names, the frame [pd.read_csv(path, header=0, names=...)] returns or
    the exception it raises (how pandas lines the names up with the
    columns of the file, or refuses them, is left to pandas). *)
Record world : Type := {
  schema_csv : option (list (list string));
  results_csv : option (list string -> result DataFrame);
  random_lt : nat -> bool
}.

(** A run of cells: the events so far and a value or the exception that
    stopped the run. *)
Definition NB (A : Type) : Type := list event * result A.

Definition nb_ret {A} (a : A) : NB A := ([], Ok a).

Definition nb_bind {A B} (m : NB A) (k : A -> NB B) : NB B :=
  match m with
  | (t, Ok a) => let '(t', r) := k a in (t ++ t', r)
  | (t, Raise e) => (t, Raise e)
  end.

Definition emit (e : event) : NB unit := ([e], Ok tt).
Definition lift {A} (r : result A) : NB A := ([], r).
Definition raise {A} (e : exn) : NB A := ([], Raise e).

Notation "'let*' x ':=' m 'in' k" := (nb_bind m (fun x => k))
  (at level 10, x name, m at level 100, k at level 200, only parsing).

(** [os.path.join(a, b)] for a relative [b]. *)
Definition path_join (a b : string) : string := (a ++ "/" ++ b)%string.

Definition WORKSPACE_PATH : string :=
  "/content/datalab/workspace/structured_data_classification_stackoverflow".
Definition survey_results_path : string := path_join WORKSPACE_PATH "survey_results_public.csv".
Definition survey_schema_path : string := path_join WORKSPACE_PATH "survey_results_schema.csv".
Definition clean_folder : string := path_join WORKSPACE_PATH "clean_input".
Definition train_data_path : string := path_join clean_folder "train.csv".
Definition eval_data_path : string := path_join clean_folder "eval.csv".
Definition schema_path : string := path_join clean_folder "schema.json".
Definition transform_path : string := path_join clean_folder "transforms.json".

(** [os.path.isfile] *)
Definition isfile {A} (file : option A) : bool :=
  match file with Some _ => true | None => false end.

(** [[
if not os.path.isfile(survey_results_path) or not os.path.isfile(survey_schema_path):
    print('Error: the data files are missing!')
    print('Download the data and schema files from https://www.kaggle.com/stackoverflow/so-survey-2017')
    print('and put them into the folder ' + WORKSPACE_PATH)
]] *)
Definition missing_files_message : list event :=
  [EvPrint "Error: the data files are missing!";
   EvPrint "Download the data and schema files from https://www.kaggle.com/stackoverflow/so-survey-2017";
   EvPrint ("and put them into the folder " ++ WORKSPACE_PATH)%string].

Definition check_input_files (w : world) : NB unit :=
  if negb (isfile (results_csv w)) || negb (isfile (schema_csv w))
  then (missing_files_message, Ok tt)
  else nb_ret tt.

(** [[
with open(survey_schema_path, 'r') as f:
    reader = csv.reader(f)
    next(reader) # skip header
    headers = [r[0] for r in reader]
]] *)
Definition first_field (r : list string) : result string :=
  match r with
  | [] => Raise IndexError
  | x :: _ => Ok x
  end.

Definition read_headers (w : world) : NB (list string) :=
  match schema_csv w with
  | None => raise (IOError survey_schema_path)
  | Some rows =>
      let* _ := emit (EvRead survey_schema_path) in
      match rows with
      | [] => raise StopIteration
      | _ :: rows' => lift (mapM first_field rows')
      end
  end.

(** [pd.read_csv(survey_results_path, header=0, names=headers)]: an
    absent file raises [IOError]; otherwise the file is read and the
    result is what pandas gives for these names. *)
Definition read_csv (w : world) (names : list string) : NB DataFrame :=
  match results_csv w with
  | None => raise (IOError survey_results_path)
  | Some parse =>
      let* _ := emit (EvRead survey_results_path) in
      lift (parse names)
  end.

(** [cleanup_df(df_all)]; an exception of the call stops the run. *)
Definition run_cleanup (c : columns) (headers : list string) (df : DataFrame) : NB DataFrame :=
  let '(df', r) := cleanup_df c headers df in
  let* _ := lift r in nb_ret df'.

(** [len(df_all)] *)
Definition nrows (df : DataFrame) : nat :=
  match df with
  | [] => 0
  | (_, cells) :: _ => length cells
  end.

(** [[
random_index = []
for i in range(len(df_all)):
    if random.random() < 0.8: random_index.append(True)
    else: random_index.append(False)
]] *)
Definition random_index (w : world) (n : nat) : list bool :=
  List.map (random_lt w) (List.seq 0 n).

(** Boolean-mask indexing [df[x]]. *)
Fixpoint select {A} (mask : list bool) (l : list A) : list A :=
  match mask, l with
  | b :: mask', x :: l' => if b then x :: select mask' l' else select mask' l'
  | _, _ => []
  end.

(** The rows of a frame where a boolean array is [True]. *)
Definition mask_rows (mask : list bool) (df : DataFrame) : DataFrame :=
  List.map (fun col => (fst col, select mask (snd col))) df.

(** [np.array(random_index)]: a list of booleans gives a boolean array,
    except the empty list, which gives an empty array of dtype float. *)
Inductive ndarray : Type :=
| BoolArray (mask : list bool)
| EmptyFloatArray.

Definition np_array (l : list bool) : ndarray :=
  match l with
  | [] => EmptyFloatArray
  | _ :: _ => BoolArray l
  end.

(** [np.logical_not(x)] is a boolean array whatever the dtype of [x]. *)
Definition np_logical_not (x : ndarray) : ndarray :=
  match x with
  | BoolArray mask => BoolArray (List.map negb mask)
  | EmptyFloatArray => BoolArray []
  end.

(** [df[x]]: a boolean array selects rows; an array that is not boolean
    is taken as a list of column labels, and the empty one selects no
    column. *)
Definition frame_getitem (df : DataFrame) (x : ndarray) : DataFrame :=
  match x with
  | BoolArray mask => mask_rows mask df
  | EmptyFloatArray => []
  end.

(** [[
x = np.array(random_index)
df_train = df_all[x]
df_eval = df_all[np.logical_not(x)]
]] *)
Definition split (w : world) (df_all : DataFrame) : DataFrame * DataFrame :=
  let x := np_array (random_index w (nrows df_all)) in
  (frame_getitem df_all x, frame_getitem df_all (np_logical_not x)).

Definition split_and_save (w : world) (df_all : DataFrame) : NB unit :=
  let '(df_train, df_eval) := split w df_all in
  let* _ := emit (EvWrite train_data_path (Csv df_train)) in
  emit (EvWrite eval_data_path (Csv df_eval)).

(** Python 2.7's strict UTF-8 decoder, as a scan over the bytes: after
    a lead byte, [Utf8Cont n lo hi] expects [n] more bytes, the next of
    them in [lo..hi].  Lead bytes 0xC0, 0xC1 and 0xF5..0xFF, overlong
    forms and code points above 0x10FFFF are refused, and so is a
    sequence cut short by the end of the string; the encodings of
    surrogates (0xED 0xA0..0xBF) are accepted. *)
Inductive utf8_state : Type :=
| Utf8Start
| Utf8Cont (n : nat) (lo hi : N).

Definition in_range (lo hi b : N) : bool := N.leb lo b && N.leb b hi.

Definition utf8_lead (b : N) : option utf8_state :=
  if N.ltb b 128 then Some Utf8Start
  else if in_range 194 223 b then Some (Utf8Cont 1 128 191)
  else if N.eqb b 224 then Some (Utf8Cont 2 160 191)
  else if in_range 225 239 b then Some (Utf8Cont 2 128 191)
  else if N.eqb b 240 then Some (Utf8Cont 3 144 191)
  else if in_range 241 243 b then Some (Utf8Cont 3 128 191)
  else if N.eqb b 244 then Some (Utf8Cont 3 128 143)
  else None.

Fixpoint utf8_decodes_from (st : utf8_state) (s : string) : bool :=
  match s with
  | EmptyString =>
      match st with
      | Utf8Start => true
      | Utf8Cont _ _ _ => false
      end
  | String c s' =>
      let b := N_of_ascii c in
      match st with
      | Utf8Start =>
          match utf8_lead b with
          | Some st' => utf8_decodes_from st' s'
          | None => false
          end
      | Utf8Cont n lo hi =>
          if in_range lo hi b
          then match n with
               | 0 => false
               | 1 => utf8_decodes_from Utf8Start s'
               | S n' => utf8_decodes_from (Utf8Cont n' 128 191) s'
               end
          else false
      end
  end.

(** [s.decode('utf-8')] does not raise. *)
Definition utf8_decodes (s : string) : bool := utf8_decodes_from Utf8Start s.

(** [json.dumps] under Python 2 encodes a [str] with
    [encode_basestring_ascii], which decodes it as UTF-8 when it has a
    byte above 127 and raises [UnicodeDecodeError] when that fails. *)
Definition json_encodes (s : string) : bool := utf8_decodes s.

(** [[
with open(schema_path, 'w') as f:
    f.write(json.dumps(schema))
]]
    The file is opened, and so emptied, before [json.dumps] runs. *)
Definition emit_schema (c : columns) (headers : list string) : NB unit :=
  let schema := build_schema c headers [] in
  if List.forallb (fun e => json_encodes (name e) && json_encodes (type e)) schema
  then emit (EvWrite schema_path (SchemaJson schema))
  else ([EvWrite schema_path EmptyFile], Raise UnicodeDecodeError).

(** Cell 18: build the transforms and write them; the [break] only
    leaves the loop, the [with open(...)] after it runs in any case, and
    [json.dumps] encodes the keys and the transform names. *)
Definition emit_transforms (c : columns) (headers : list string) : NB unit :=
  let '(transforms, printed) := build_transforms c headers ∅ in
  if List.forallb (fun kv => json_encodes (fst kv) && json_encodes (snd kv))
       (map_to_list transforms)
  then (List.map EvPrint printed
          ++ [EvWrite transform_path (TransformsJson transforms)], Ok tt)
  else (List.map EvPrint printed ++ [EvWrite transform_path EmptyFile],
        Raise UnicodeDecodeError).

(** The notebook, for a column table [c] as cell 11 fills it. *)
Definition notebook (c : columns) (w : world) : NB unit :=
  let* _ := emit (EvMkdir clean_folder) in
  let* _ := check_input_files w in
  let* headers := read_headers w in
  let* _ := lift (check_column_count c headers) in
  let* df_all := read_csv w headers in
  let* df_all := run_cleanup c headers df_all in
  let* _ := split_and_save w df_all in
  let* _ := emit_schema c headers in
  emit_transforms c headers.

Definition trace {A} (r : NB A) : list event := fst r.
Definition outcome {A} (r : NB A) : result A := snd r.

Definition is_write (e : event) : bool :=
  match e with EvWrite _ _ => true | _ => false end.

Definition reads (p : string) (e : event) : bool :=
  match e with EvRead q => String.eqb p q | _ => false end.

(** ** The vocabulary of the specification *)

(** The five buckets, and what it means for the column table to put a
    header in one. *)
Inductive bucket : Type :=
| Key | Target | Numerical | SingleLabelCategorical | MultiLabelCategorical.

Definition in_bucket (c : columns) (b : bucket) (h : string) : bool :=
  match b with
  | Key => py_in h (key_cols c)
  | Target => is_target c h
  | Numerical => py_in h (numerical_cols c)
  | SingleLabelCategorical => py_in h (single_label_cols c)
  | MultiLabelCategorical => py_in h (multi_label_cols c)
  end.

Definition all_buckets : list bucket :=
  [Key; Target; Numerical; SingleLabelCategorical; MultiLabelCategorical].

Definition buckets_of (c : columns) (h : string) : list bucket :=
  List.filter (fun b => in_bucket c b h) all_buckets.

(** A header is assigned when it is in exactly one bucket; the table
    partitions the headers when every header is. *)
Definition assigned_once (c : columns) (h : string) : bool :=
  Nat.eqb (length (buckets_of c h)) 1.

Definition partitions (c : columns) (headers : list string) : bool :=
  List.forallb (assigned_once c) headers.

(** The type and the transform the specification gives each bucket. *)
Definition schema_type_of (b : bucket) : string :=
  match b with
  | Numerical => "FLOAT"
  | Key => "INTEGER"
  | Target | SingleLabelCategorical | MultiLabelCategorical => "STRING"
  end.

Definition transform_name_of (b : bucket) : string :=
  match b with
  | Numerical => "scale"
  | Key => "key"
  | Target => "target"
  | MultiLabelCategorical => "bag_of_words"
  | SingleLabelCategorical => "one_hot"
  end.

(** The specification's wording of [normalize_multi_label] on a string,
    with "replace every occurrence of [old] with [new]" read as: cut the
    text at the occurrences of [old] and glue the pieces with [new]. *)
Definition replace_every_occurrence (old new s : string) : string :=
  PyString.join new (PyString.split old s).

Definition spec_normalize_multi_label (s : string) : string :=
  replace_every_occurrence ";" " "
    (replace_every_occurrence " " "_"
       (replace_every_occurrence "; " ";" s)).

(** The specification's wording of what [strip_non_ascii] keeps: [t] is
    [s] with exactly the characters outside the printable set removed,
    the others kept in place. *)
Inductive stripped : string -> string -> Prop :=
| stripped_nil : stripped EmptyString EmptyString
| stripped_keep c s t :
    in_printable c = true -> stripped s t -> stripped (String c s) (String c t)
| stripped_drop c s t :
    in_printable c = false -> stripped s t -> stripped (String c s) t.

(** ASCII is the seven-bit range. *)
Definition is_ascii (c : ascii) : bool := Nat.ltb (nat_of_ascii c) 128.

(** The columns [cleanup_df] may rewrite: ['Currency'], ['Race'] and the
    multi-label columns. *)
Definition touched (c : columns) (col : string) : bool :=
  String.eqb col "Currency" || String.eqb col "Race"
  || py_in col (multi_label_cols c).

(** One cleaning of a cell by either cleaning function. *)
Definition clean_step (x y : pyvalue) : Prop :=
  convert_to_ascii x = Ok y \/ update_multi_label_cols x = Ok y.

(** How a column of the frame after [cleanup_df] relates to the column
    before: same label, each cell obtained from the cell of the same row
    by zero or more cleanings, and no change at all outside the columns
    [cleanup_df] may rewrite. *)
Definition column_kept (c : columns) (a b : string * list pyvalue) : Prop :=
  fst a = fst b
  /\ Forall2 (rtc clean_step) (snd a) (snd b)
  /\ (touched c (fst a) = false -> snd a = snd b).

Definition frame_kept (c : columns) (df df' : DataFrame) : Prop :=
  Forall2 (column_kept c) df df'.

Definition preserves_frame (c : columns) (s : stmt) : Prop :=
  forall df, frame_kept c df (fst (s df)).

(** ** Small tables and worlds used as concrete inputs *)

Module Toy.

(** One numerical, one single-label and one multi-label column. *)
Definition three : columns := {|
  single_label_cols := ["Country"];
  numerical_cols := ["Salary"];
  multi_label_cols := ["IDE"];
  key_cols := [];
  target_col := None
|}.

Definition three_headers : list string := ["Salary"; "Country"; "IDE"].

(** Four registrations for four headers, but ['Salary'] is registered
    twice and ['Country'] not at all. *)
Definition miscounted : columns := {|
  single_label_cols := ["Salary"];
  numerical_cols := ["Salary"];
  multi_label_cols := [];
  key_cols := ["Respondent"];
  target_col := Some "Professional"
|}.

Definition miscounted_headers : list string :=
  ["Respondent"; "Professional"; "Country"; "Salary"].

(** Three registrations for three headers, one of which, ['ShoeSize'],
    is not registered. *)
Definition unknown_label : columns := {|
  single_label_cols := [];
  numerical_cols := ["Salary"];
  multi_label_cols := [];
  key_cols := ["Respondent"];
  target_col := Some "Professional"
|}.

Definition unknown_label_headers : list string :=
  ["Respondent"; "ShoeSize"; "Salary"].

Definition always (b : bool) (i : nat) : bool := b.

(** What pandas returns for a file with the data columns [cols] when it
    is given as many names as there are columns, all distinct: the
    columns under these names, in order.  The worlds below are only ever
    asked for such names; [ValueError] stands for the other answers. *)
Definition parsed (cols : list (list pyvalue)) (names : list string) : result DataFrame :=
  if Nat.eqb (length names) (length cols) && bool_decide (NoDup names)
  then Ok (combine names cols)
  else Raise ValueError.

(** Both files present; the schema file names the three headers above
    and the results file has one row. *)
Definition unknown_label_world : world := {|
  schema_csv := Some [["Column"; "Question"]; ["Respondent"; "Id"];
                      ["ShoeSize"; "Size"]; ["Salary"; "Pay"]];
  results_csv := Some (parsed [[PyInt 1]; [PyFloat 42]; [PyFloat nan]]);
  random_lt := always true
|}.

(** The schema file is present and names two headers; the results
    file is absent. *)
Definition no_results_world : world := {|
  schema_csv := Some [["Column"; "Question"]; ["Respondent"; "Id"];
                      ["Professional"; "Kind"]];
  results_csv := None;
  random_lt := always true
|}.

(** Both files present, but the schema file names only two of the
    three columns of the table [three]. *)
Definition short_schema_world : world := {|
  schema_csv := Some [["Column"; "Question"]; ["Salary"; "Pay"];
                      ["Country"; "Where"]];
  results_csv := Some (parsed [[PyFloat 42]; [PyStr "Chile"]]);
  random_lt := always true
|}.

(** The results file is present; the schema file is absent. *)
Definition no_schema_world : world := {|
  schema_csv := None;
  results_csv := Some (parsed [[PyInt 1]]);
  random_lt := always true
|}.

(** A frame with a multi-label column, a flagged column and two
    columns [cleanup_df] has no rule for. *)
Definition frame : DataFrame :=
  [("Respondent", [PyInt 1; PyInt 2]);
   ("Currency", [PyStr "Euros"; PyFloat nan]);
   ("IDE", [PyStr "Vim; Emacs"; PyStr "Visual Studio"]);
   ("Salary", [PyFloat 42; PyFloat nan])].

End Toy.

(** ** Notions used to state further properties of the code *)

(** [s.count(c)] for a one-character [c]. *)
Fixpoint count_char (c : ascii) (s : string) : nat :=
  match s with
  | EmptyString => 0
  | String b s' => (if Ascii.eqb c b then 1 else 0) + count_char c s'
  end.

(** A cleaning function applied only when its test holds, and two of
    them one after the other. *)
Definition guarded (b : bool) (f : pyvalue -> result pyvalue) (v : pyvalue) : result pyvalue :=
  if b then f v else Ok v.

Definition and_next (f g : pyvalue -> result pyvalue) (v : pyvalue) : result pyvalue :=
  rbind (f v) g.

(** What one pass of the body of [cleanup_df]'s loop for the header
    [col] does to a cell of the column [col]: the three [if]s in order. *)
Definition clean_cell (c : columns) (col : string) : pyvalue -> result pyvalue :=
  and_next (guarded (String.eqb col "Currency") convert_to_ascii)
    (and_next (guarded (String.eqb col "Race") convert_to_ascii)
       (guarded (py_in col (multi_label_cols c)) update_multi_label_cols)).

(** A statement that, when it returns, has rewritten the column [h]
    cell by cell with [f] and left the other columns as they were. *)
Definition rewrites_column (h : string) (f : pyvalue -> result pyvalue) (s : stmt) : Prop :=
  forall df df1,
    NoDup (column_names df) ->
    s df = (df1, Ok tt) ->
    column_names df1 = column_names df
    /\ forall i col cells,
         df !! i = Some (col, cells) ->
         exists cells1,
           df1 !! i = Some (col, cells1)
           /\ (col = h -> mapM f cells = Ok cells1)
           /\ (col <> h -> cells1 = cells).

(** The body of [cleanup_df]'s loop, for one header. *)
Definition loop_body (c : columns) (col : string) : stmt :=
  (when (String.eqb col "Currency") (assign_apply col convert_to_ascii) ;;
   when (String.eqb col "Race") (assign_apply col convert_to_ascii) ;;
   when (py_in col (multi_label_cols c))
     (assign_apply col update_multi_label_cols))%stmt.

(** A frame on which [cleanup_df] has all it needs for the headers:
    every header it has a rule for is a column, and no column of a
    multi-label header holds an integer. *)
Definition ready (c : columns) (headers : list string) (df : DataFrame) : Prop :=
  (forall col, col ∈ headers -> touched c col = true -> col ∈ column_names df)
  /\ (forall col cells v,
        col ∈ headers -> py_in col (multi_label_cols c) = true ->
        (col, cells) ∈ df -> v ∈ cells -> type_of v <> TInt).

(** Every column has as many cells as the frame has rows. *)
Definition rectangular (df : DataFrame) : bool :=
  List.forallb (fun col => Nat.eqb (length (snd col)) (nrows df)) df.

(** The rows selected by a mask and the rows it leaves out, put back in
    their places. *)
Fixpoint merge {A} (mask : list bool) (yes no : list A) : list A :=
  match mask with
  | [] => []
  | true :: mask' =>
      match yes with
      | x :: yes' => x :: merge mask' yes' no
      | [] => []
      end
  | false :: mask' =>
      match no with
      | x :: no' => x :: merge mask' yes no'
      | [] => []
      end
  end.

(** The paths written during a run, in order. *)
Definition written_paths (t : list event) : list string :=
  List.flat_map (fun e => match e with EvWrite p _ => [p] | _ => [] end) t.



(** The relation the scan for ['; '] computes: each ['; '] gives [';'],
    every other character is copied. *)
Inductive semi_scan : string -> string -> Prop :=
| semi_scan_nil : semi_scan EmptyString EmptyString
| semi_scan_hit s r :
    semi_scan s r -> semi_scan (String ";" (String " " s)) (String ";" r)
| semi_scan_copy x s r :
    PyString.startswith "; " (String x s) = false ->
    semi_scan s r -> semi_scan (String x s) (String x r).

Module ToyMore.

(** Three headers, each registered once. *)
Definition valid : columns := {|
  single_label_cols := [];
  numerical_cols := ["Salary"];
  multi_label_cols := ["Race"];
  key_cols := ["Respondent"];
  target_col := Some "Professional"
|}.

Definition valid_headers : list string :=
  ["Respondent"; "Professional"; "Race"; "Salary"].

(** A frame for these headers; the second ['Race'] cell has a byte
    outside ASCII between [';'] and the space. *)
Definition valid_frame : DataFrame :=
  [("Respondent", [PyInt 1; PyInt 2]);
   ("Professional", [PyStr "Student"; PyFloat nan]);
   ("Race", [PyStr "East Asian; White"; PyStr (String ";" (String (ascii_of_nat 233) " x"))]);
   ("Salary", [PyFloat 42; PyFloat nan])].

Definition alternate (i : nat) : bool := Nat.even i.

Definition full_world : world := {|
  schema_csv := Some [[]; ["Respondent"; "Id"]; ["Professional"; "Kind"];
                      ["Race"; "Which"]; ["Salary"; "Pay"]];
  results_csv := Some (Toy.parsed (List.map snd valid_frame));
  random_lt := alternate
|}.


End ToyMore.

(** ** Python strings: facts about [replace], [split], [join], [filter] *)

Section PyStringFacts.

Import PyString.

Lemma append_nil_l (t : string) : ("" ++ t)%string = t.
Proof. reflexivity. Qed.

Lemma append_cons c (s t : string) :
  (String c s ++ t)%string = String c (s ++ t)%string.
Proof. reflexivity. Qed.

Lemma append_empty_r (s : string) : (s ++ "")%string = s.
Proof.
  induction s as [|c s IH]; [reflexivity|].
  now rewrite append_cons, IH.
Qed.

Lemma append_assoc3 (a b c : string) :
  ((a ++ b) ++ c)%string = (a ++ (b ++ c))%string.
Proof.
  induction a as [|x a IH]; [reflexivity|].
  now rewrite !append_cons, IH.
Qed.

Lemma split_from_nonempty sep skip cur s : split_from sep skip cur s <> [].
Proof.
  revert skip cur. induction s as [|c s IH]; intros skip cur; simpl.
  - discriminate.
  - destruct skip as [|k]; [|apply IH].
    destruct (startswith sep (String c s)); [discriminate | apply IH].
Qed.

Lemma join_cons sep x l :
  l <> [] -> join sep (x :: l) = (x ++ sep ++ join sep l)%string.
Proof. destruct l; [congruence | reflexivity]. Qed.

(** The scan of [replace] emits what gluing the pieces of [split] gives. *)
Lemma replace_from_join_split old new s :
  forall skip cur,
    (cur ++ replace_from old new skip s)%string
    = join new (split_from old skip cur s).
Proof.
  induction s as [|c s IH]; intros skip cur.
  - simpl. apply append_empty_r.
  - destruct skip as [|k]; [|apply IH].
    cbn [replace_from split_from].
    destruct (startswith old (String c s)).
    + rewrite join_cons by apply split_from_nonempty.
      rewrite <- IH. reflexivity.
    + rewrite <- IH, append_assoc3. reflexivity.
Qed.

Lemma replace_is_join_split c old new s :
  replace (String c old) new s = join new (split (String c old) s).
Proof.
  unfold replace, split.
  now rewrite <- replace_from_join_split.
Qed.

(** Replacing one character by one character is a character map. *)
Lemma replace_char a b s :
  replace (String a "") (String b "") s = map (subst_char a b) s.
Proof.
  unfold replace. induction s as [|c s IH]; [reflexivity|].
  cbn [replace_from startswith map String.length]. unfold subst_char.
  rewrite andb_true_r. simpl Nat.sub.
  destruct (Ascii.eqb a c); simpl; now rewrite IH.
Qed.

Lemma contains_map_subst a b c s :
  b <> c -> a <> c \/ contains c s = false ->
  contains c (map (subst_char a b) s) = contains c s.
Proof.
  intros Hbc H. induction s as [|x s IH]; [reflexivity|].
  simpl. unfold subst_char at 1.
  destruct (Ascii.eqb_spec a x) as [->|Hax].
  - destruct (Ascii.eqb_spec c b) as [->|_]; [congruence|].
    destruct (Ascii.eqb_spec c x) as [->|_].
    + destruct H as [H|H]; [congruence|]. simpl in H.
      rewrite Ascii.eqb_refl in H. discriminate.
    + simpl. apply IH. destruct H as [H|H]; [now left|right].
      simpl in H. now apply orb_false_iff in H.
  - destruct (Ascii.eqb c x); [reflexivity|]. simpl. apply IH.
    destruct H as [H|H]; [now left|right].
    simpl in H. now apply orb_false_iff in H.
Qed.

Lemma map_subst_absent a b s :
  contains a s = false -> map (subst_char a b) s = s.
Proof.
  induction s as [|x s IH]; [reflexivity|]. simpl. intros H.
  apply orb_false_iff in H as [Hx Hs]. unfold subst_char at 1.
  rewrite Hx. now rewrite IH.
Qed.

Lemma contains_map_target a b s :
  a <> b -> contains a (map (subst_char a b) s) = false.
Proof.
  intros Hab. induction s as [|x s IH]; [reflexivity|].
  simpl. rewrite IH, orb_false_r. unfold subst_char.
  destruct (Ascii.eqb_spec a x) as [->|Hax].
  - now apply Ascii.eqb_neq.
  - now apply Ascii.eqb_neq.
Qed.

Lemma contains_map_image a b s :
  contains b (map (subst_char a b) s) = contains a s || contains b s.
Proof.
  induction s as [|x s IH]; [reflexivity|].
  simpl. rewrite IH. unfold subst_char.
  destruct (Ascii.eqb_spec a x) as [->|Hax].
  - rewrite Ascii.eqb_refl. reflexivity.
  - destruct (Ascii.eqb b x); simpl; [now rewrite orb_true_r|reflexivity].
Qed.

(** ['; '] can only start at a [';']. *)
Lemma replace_semi_space_absent s :
  contains ";" s = false -> replace "; " ";" s = s.
Proof.
  unfold replace. induction s as [|x s IH]; [reflexivity|].
  intros H. cbn [contains] in H. apply orb_false_iff in H as [Hx Hs].
  cbn [replace_from startswith]. rewrite Hx. cbn [andb].
  now rewrite IH.
Qed.

(** Each ['; '] leaves its [';'] behind. *)
Lemma contains_semi_replace s :
  contains ";" (replace "; " ";" s) = contains ";" s.
Proof.
  unfold replace. induction s as [|x s IH]; [reflexivity|].
  cbn [replace_from]. destruct (startswith "; " (String x s)) eqn:Hst.
  - cbn [startswith] in Hst. apply andb_true_iff in Hst as [Hx _].
    rewrite append_cons. cbn [contains]. now rewrite Hx.
  - cbn [contains]. now rewrite IH.
Qed.

Lemma filter_idempotent f s : filter f (filter f s) = filter f s.
Proof.
  induction s as [|x s IH]; [reflexivity|]. simpl.
  destruct (f x) eqn:Hx; [simpl; rewrite Hx; now rewrite IH | exact IH].
Qed.

Lemma filter_all f s : forallb f s = true -> filter f s = s.
Proof.
  induction s as [|x s IH]; [reflexivity|]. simpl. intros H.
  apply andb_true_iff in H as [Hx Hs]. now rewrite Hx, IH.
Qed.

Lemma filter_forallb f s : forallb f (filter f s) = true.
Proof.
  induction s as [|x s IH]; [reflexivity|]. simpl.
  destruct (f x) eqn:Hx; [simpl; now rewrite Hx | exact IH].
Qed.

End PyStringFacts.

(** [string.printable] is the range 32..126 together with tab, line
    feed, vertical tab, form feed and carriage return (9..13). *)
Lemma in_printable_codes (c : ascii) :
  in_printable c =
  let n := nat_of_ascii c in
  (Nat.leb 32 n && Nat.leb n 126) || (Nat.leb 9 n && Nat.leb n 13).
Proof.
  destruct c as [[] [] [] [] [] [] [] []]; vm_compute; reflexivity.
Qed.

Lemma in_printable_is_ascii (c : ascii) : in_printable c = true -> is_ascii c = true.
Proof.
  destruct c as [[] [] [] [] [] [] [] []]; vm_compute; congruence.
Qed.

Lemma stripped_filter s : stripped s (PyString.filter in_printable s).
Proof.
  induction s as [|c s IH]; simpl; [constructor|].
  destruct (in_printable c) eqn:Hc; now constructor.
Qed.

Lemma stripped_functional s t : stripped s t -> t = PyString.filter in_printable s.
Proof.
  induction 1 as [|c s t Hc _ IH|c s t Hc _ IH]; simpl;
    [reflexivity | rewrite Hc; now f_equal | now rewrite Hc].
Qed.

(** On a string, [update_multi_label_cols] is three passes: the scan for
    ['; '] and two character maps. *)
Lemma update_multi_label_cols_passes s :
  update_multi_label_cols (PyStr s)
  = Ok (PyStr (PyString.map (PyString.subst_char ";" " ")
                 (PyString.map (PyString.subst_char " " "_")
                    (PyString.replace "; " ";" s)))).
Proof.
  unfold update_multi_label_cols. now rewrite !replace_char.
Qed.

(** The output of [update_multi_label_cols] has no [';'], and it has a
    space exactly when the input has a [';']. *)
Lemma update_multi_label_cols_output s r :
  update_multi_label_cols (PyStr s) = Ok (PyStr r) ->
  PyString.contains ";" r = false
  /\ PyString.contains " " r = PyString.contains ";" s.
Proof.
  rewrite update_multi_label_cols_passes. intros [= <-]. split.
  - now apply contains_map_target.
  - rewrite contains_map_image.
    rewrite (contains_map_target " " "_") by discriminate.
    rewrite orb_false_r, contains_map_subst; [|discriminate|left; discriminate].
    apply contains_semi_replace.
Qed.

(** A second application only turns the spaces into underscores. *)
Lemma update_multi_label_cols_again s r :
  update_multi_label_cols (PyStr s) = Ok (PyStr r) ->
  update_multi_label_cols (PyStr r)
  = Ok (PyStr (PyString.map (PyString.subst_char " " "_") r)).
Proof.
  intros H. apply update_multi_label_cols_output in H as [Hsemi _].
  rewrite update_multi_label_cols_passes.
  rewrite (replace_semi_space_absent r Hsemi).
  rewrite (map_subst_absent ";"); [reflexivity|].
  rewrite contains_map_subst; [exact Hsemi|discriminate|left; discriminate].
Qed.

(** Floats, among them NaN, pass through both cleaning functions, and
    integers pass through [convert_to_ascii]. *)
Lemma update_multi_label_cols_float f :
  update_multi_label_cols (PyFloat f) = Ok (PyFloat f).
Proof. reflexivity. Qed.

Lemma convert_to_ascii_number v :
  type_of v <> TStr -> convert_to_ascii v = Ok v.
Proof. destruct v; simpl; congruence. Qed.

(** ** The text normaliser: claims C2, C4, C5 and C8 *)

(** C2. On every string [s], [update_multi_label_cols] returns what the
    specification words as: every ['; '] replaced by [';'], then every
    space by ['_'], then every [';'] by a space.  It maps
    "Stock options; Annual bonus" to "Stock_options Annual_bonus" and
    "Vacation/days off; Equipment; Meals" to
    "Vacation/days_off Equipment Meals". *)
Theorem update_multi_label_cols_string :
  (forall s : string,
      update_multi_label_cols (PyStr s)
      = Ok (PyStr (spec_normalize_multi_label s)))
  /\ update_multi_label_cols (PyStr "Stock options; Annual bonus")
     = Ok (PyStr "Stock_options Annual_bonus")
  /\ update_multi_label_cols (PyStr "Vacation/days off; Equipment; Meals")
     = Ok (PyStr "Vacation/days_off Equipment Meals").
Proof.
  split; [|split; reflexivity].
  intros s. unfold update_multi_label_cols, spec_normalize_multi_label,
    replace_every_occurrence.
  now rewrite !replace_is_join_split.
Qed.

(** C4, at the failing input.  Both cleaning functions return a float
    (3.14, NaN) as it is, and [convert_to_ascii], whose guard is
    [isinstance(v, (float, int))], returns an integer as it is; but
    [update_multi_label_cols(5)] raises [AttributeError]: its guard is
    [isinstance(v, float)], and an [int] has no [replace]. *)
Theorem update_multi_label_cols_int_raises :
  (forall f, update_multi_label_cols (PyFloat f) = Ok (PyFloat f)
             /\ convert_to_ascii (PyFloat f) = Ok (PyFloat f))
  /\ (forall n, convert_to_ascii (PyInt n) = Ok (PyInt n))
  /\ update_multi_label_cols (PyFloat 3.14) = Ok (PyFloat 3.14)
  /\ update_multi_label_cols (PyFloat nan) = Ok (PyFloat nan)
  /\ convert_to_ascii (PyInt 5) = Ok (PyInt 5)
  /\ update_multi_label_cols (PyInt 5) = Raise (AttributeError "replace").
Proof.
  split; [intros f; split; reflexivity|].
  split; [intros n; reflexivity|].
  repeat split.
Qed.

(** C5 as stated fails on the specification's own example: the second
    application turns the space between the two labels into ['_']. *)
Lemma update_multi_label_cols_not_idempotent :
  update_multi_label_cols (PyStr "Stock options; Annual bonus")
  = Ok (PyStr "Stock_options Annual_bonus")
  /\ update_multi_label_cols (PyStr "Stock_options Annual_bonus")
     = Ok (PyStr "Stock_options_Annual_bonus")
  /\ update_multi_label_cols (PyStr "Stock_options Annual_bonus")
     <> Ok (PyStr "Stock_options Annual_bonus").
Proof. split; [reflexivity | split; [reflexivity | discriminate]]. Qed.

(** C5, amended.  Applying [update_multi_label_cols] to its own output
    [out] yields [out] again exactly when the input is a float or a
    string without [';']. *)
Theorem update_multi_label_cols_idempotent_iff (v out : pyvalue) :
  update_multi_label_cols v = Ok out ->
  (update_multi_label_cols out = Ok out
   <-> match v with
       | PyStr s => PyString.contains ";" s = false
       | PyFloat _ => True
       | PyInt _ => False
       end).
Proof.
  destruct v as [s|f|n]; intros Hout.
  - pose proof Hout as Hpass. rewrite update_multi_label_cols_passes in Hpass.
    injection Hpass as <-.
    set (r := PyString.map _ _) in *.
    destruct (update_multi_label_cols_output s r Hout) as [_ Hspace].
    rewrite (update_multi_label_cols_again s r Hout), <- Hspace.
    split.
    + intros [= Heq]. rewrite <- Heq.
      apply contains_map_target. discriminate.
    + intros H. now rewrite map_subst_absent.
  - injection Hout as <-. simpl. tauto.
  - discriminate.
Qed.

Lemma update_multi_label_cols_idempotent_iff_witness :
  update_multi_label_cols (PyStr "Stock options") = Ok (PyStr "Stock_options")
  /\ (update_multi_label_cols (PyStr "Stock_options") = Ok (PyStr "Stock_options")
      <-> PyString.contains ";" "Stock options" = false).
Proof.
  split; [reflexivity|].
  apply (update_multi_label_cols_idempotent_iff
           (PyStr "Stock options") (PyStr "Stock_options")).
  reflexivity.
Defined.

(** C8 as stated fails on ASCII control characters: BEL (code 7) is
    ASCII, is not in [string.printable], and is removed. *)
Lemma convert_to_ascii_changes_ascii_input :
  PyString.forallb is_ascii (String (ascii_of_nat 7) "ok") = true
  /\ convert_to_ascii (PyStr (String (ascii_of_nat 7) "ok")) = Ok (PyStr "ok")
  /\ convert_to_ascii (PyStr (String (ascii_of_nat 7) "ok"))
     <> Ok (PyStr (String (ascii_of_nat 7) "ok")).
Proof. split; [reflexivity | split; [reflexivity | discriminate]]. Qed.

(** C8, amended.  On every string [s], [convert_to_ascii] returns the
    one string [t] that is [s] with exactly the characters outside
    [string.printable] removed and the others kept in order; applying it
    to [t] returns [t]; and when every character of [s] is in
    [string.printable], [t] is [s]. *)
Theorem convert_to_ascii_string (s : string) :
  exists t : string,
    convert_to_ascii (PyStr s) = Ok (PyStr t)
    /\ stripped s t
    /\ (forall t', stripped s t' -> t' = t)
    /\ convert_to_ascii (PyStr t) = Ok (PyStr t)
    /\ (PyString.forallb in_printable s = true -> t = s).
Proof.
  exists (PyString.filter in_printable s).
  split; [reflexivity|]. split; [|split; [|split]].
  - apply stripped_filter.
  - apply stripped_functional.
  - simpl. now rewrite filter_idempotent.
  - apply filter_all.
Qed.

Lemma convert_to_ascii_string_witness :
  PyString.forallb in_printable "C++; Go" = true
  /\ convert_to_ascii (PyStr "C++; Go") = Ok (PyStr "C++; Go").
Proof.
  split; [reflexivity|].
  destruct (convert_to_ascii_string "C++; Go") as (t & Hrun & _ & _ & _ & Hid).
  rewrite Hrun, (Hid eq_refl). reflexivity.
Defined.

(** ** The artifact emitter: claims C3, C6 and C10 *)

Lemma build_schema_map c headers acc :
  build_schema c headers acc = acc ++ List.map (schema_entry_of c) headers.
Proof.
  revert acc. induction headers as [|h hs IH]; intros acc; simpl.
  - now rewrite app_nil_r.
  - now rewrite IH, <- app_assoc.
Qed.

Lemma schema_entry_of_name c h : name (schema_entry_of c h) = h.
Proof.
  unfold schema_entry_of.
  destruct (py_in h (numerical_cols c)); [reflexivity|].
  destruct (py_in h (key_cols c)); reflexivity.
Qed.

Lemma build_schema_names c headers :
  List.map name (build_schema c headers []) = headers.
Proof.
  rewrite build_schema_map. simpl. rewrite List.map_map.
  induction headers as [|h hs IH]; simpl; [reflexivity|].
  now rewrite schema_entry_of_name, IH.
Qed.

Lemma build_schema_lookup c headers i h :
  headers !! i = Some h ->
  build_schema c headers [] !! i = Some (schema_entry_of c h).
Proof.
  intros H. rewrite build_schema_map. simpl.
  change (List.map (schema_entry_of c) headers) with (schema_entry_of c <$> headers).
  now rewrite list_lookup_fmap, H.
Qed.

(** A header in exactly one bucket gets the type and the transform of
    that bucket, whatever the order of the tests in the loops. *)
Lemma assigned_once_emits c h b :
  assigned_once c h = true -> in_bucket c b h = true ->
  schema_entry_of c h = {| name := h; type := schema_type_of b |}
  /\ transform_of c h = Some (transform_name_of b).
Proof.
  unfold assigned_once, buckets_of, all_buckets, schema_entry_of, transform_of.
  destruct b; cbn [List.filter in_bucket];
    destruct (py_in h (key_cols c)), (is_target c h), (py_in h (numerical_cols c)),
      (py_in h (single_label_cols c)), (py_in h (multi_label_cols c));
    cbn [length Nat.eqb]; intros Hone Hb;
    try discriminate Hone; try discriminate Hb; split; reflexivity.
Qed.

(** A header in no bucket falls to the last branch of both loops. *)
Lemma unassigned_emits c h :
  buckets_of c h = [] ->
  schema_entry_of c h = {| name := h; type := "STRING" |}
  /\ transform_of c h = None.
Proof.
  unfold buckets_of, all_buckets, schema_entry_of, transform_of.
  cbn [List.filter in_bucket].
  destruct (py_in h (key_cols c)), (is_target c h), (py_in h (numerical_cols c)),
    (py_in h (single_label_cols c)), (py_in h (multi_label_cols c));
    intros Hnone; try discriminate Hnone; split; reflexivity.
Qed.

(** When no header reaches the [break], the loop prints nothing and the
    dictionary holds the transform of each header, on top of what it
    held before. *)
Lemma build_transforms_no_break c headers :
  forall acc : gmap string string,
    (forall h, h ∈ headers -> is_Some (transform_of c h)) ->
    snd (build_transforms c headers acc) = []
    /\ forall h, fst (build_transforms c headers acc) !! h
                 = if decide (h ∈ headers) then transform_of c h else acc !! h.
Proof.
  induction headers as [|h0 hs IH]; intros acc Hall.
  - split; [reflexivity|]. intros h. simpl.
    destruct (decide (h ∈ [])) as [Hin|_]; [|reflexivity].
    now apply elem_of_nil in Hin.
  - destruct (Hall h0) as [t Ht]; [left|].
    cbn [build_transforms]. rewrite Ht.
    destruct (IH (<[h0:=t]> acc)) as [Hp Hl]; [intros; apply Hall; now right|].
    split; [exact Hp|]. intros h. rewrite Hl.
    destruct (decide (h ∈ hs)) as [Hin|Hnin].
    + rewrite decide_True by now right. reflexivity.
    + destruct (decide (h = h0)) as [->|Hne].
      * rewrite decide_True by left. now rewrite lookup_insert_eq.
      * rewrite decide_False; [now rewrite lookup_insert_ne|].
        intros Hin. apply elem_of_cons in Hin as [?|?]; contradiction.
Qed.

(** At the first header that matches no test, the loop prints the error
    line and stops: the dictionary holds the headers before it only. *)
Lemma build_transforms_break c pre h post :
  forall acc : gmap string string,
    (forall x, x ∈ pre -> is_Some (transform_of c x)) ->
    transform_of c h = None ->
    snd (build_transforms c (pre ++ h :: post) acc)
    = [("Error: " ++ h ++ " is an unknown label")%string]
    /\ forall x, fst (build_transforms c (pre ++ h :: post) acc) !! x
                 = if decide (x ∈ pre) then transform_of c x else acc !! x.
Proof.
  induction pre as [|h0 hs IH]; intros acc Hall Hnone.
  - cbn [app build_transforms]. rewrite Hnone. split; [reflexivity|].
    intros x. simpl. destruct (decide (x ∈ [])) as [Hin|_]; [|reflexivity].
    now apply elem_of_nil in Hin.
  - destruct (Hall h0) as [t Ht]; [left|].
    cbn [app build_transforms]. rewrite Ht.
    destruct (IH (<[h0:=t]> acc)) as [Hp Hl];
      [intros; apply Hall; now right|exact Hnone|].
    split; [exact Hp|]. intros x. rewrite Hl.
    destruct (decide (x ∈ hs)) as [Hin|Hnin].
    + rewrite decide_True by now right. reflexivity.
    + destruct (decide (x = h0)) as [->|Hne].
      * rewrite decide_True by left. now rewrite lookup_insert_eq.
      * rewrite decide_False; [now rewrite lookup_insert_ne|].
        intros Hin. apply elem_of_cons in Hin as [?|?]; contradiction.
Qed.

(** C3. For every header list and every table that puts each header in
    exactly one bucket: the schema has one entry per header, in header
    order, typed FLOAT for Numerical, INTEGER for Key and STRING for the
    three other buckets; the transforms loop reaches no [break], and the
    dictionary has exactly the headers as keys, each with the transform
    of its bucket (scale, key, target, bag_of_words, one_hot). *)
Theorem emitter_follows_buckets (c : columns) (headers : list string) :
  partitions c headers = true ->
  let schema := build_schema c headers [] in
  let transforms := fst (build_transforms c headers ∅) in
  List.map name schema = headers
  /\ (forall i h b,
        headers !! i = Some h -> in_bucket c b h = true ->
        schema !! i = Some {| name := h; type := schema_type_of b |})
  /\ snd (build_transforms c headers ∅) = []
  /\ (forall h b,
        h ∈ headers -> in_bucket c b h = true ->
        transforms !! h = Some (transform_name_of b))
  /\ (forall h, is_Some (transforms !! h) <-> h ∈ headers).
Proof.
  intros Hpart schema transforms.
  assert (Hone : forall h, h ∈ headers -> assigned_once c h = true).
  { intros h Hin. unfold partitions in Hpart.
    rewrite List.forallb_forall in Hpart. apply Hpart.
    now apply list_elem_of_In. }
  assert (Hsome : forall h, h ∈ headers -> is_Some (transform_of c h)).
  { intros h Hin. specialize (Hone h Hin).
    destruct (buckets_of c h) as [|b l] eqn:Hb;
      [unfold assigned_once in Hone; now rewrite Hb in Hone|].
    assert (Hin_b : In b (buckets_of c h)) by (rewrite Hb; now left).
    apply List.filter_In in Hin_b as [_ Hin_b].
    destruct (assigned_once_emits c h b Hone Hin_b) as [_ ->]. eauto. }
  destruct (build_transforms_no_break c headers ∅ Hsome) as [Hprint Hlook].
  split; [apply build_schema_names|].
  split; [|split; [exact Hprint|split]].
  - intros i h b Hi Hb. unfold schema.
    rewrite (build_schema_lookup c headers i h Hi). f_equal.
    apply assigned_once_emits; [|exact Hb].
    apply Hone. eapply list_elem_of_lookup_2, Hi.
  - intros h b Hin Hb. unfold transforms. rewrite Hlook.
    rewrite decide_True by exact Hin.
    now apply assigned_once_emits; [apply Hone|].
  - intros h. unfold transforms. rewrite Hlook.
    destruct (decide (h ∈ headers)) as [Hin|Hnin].
    + split; [intros _; exact Hin | intros _; now apply Hsome].
    + rewrite lookup_empty. split; [intros [x Hx]; discriminate | contradiction].
Qed.

Lemma emitter_follows_buckets_witness :
  partitions Toy.three Toy.three_headers = true
  /\ build_schema Toy.three Toy.three_headers []
     = [ {| name := "Salary"; type := "FLOAT" |};
         {| name := "Country"; type := "STRING" |};
         {| name := "IDE"; type := "STRING" |} ]
  /\ fst (build_transforms Toy.three Toy.three_headers ∅) !! "IDE"
     = Some "bag_of_words".
Proof.
  split; [reflexivity|]. split; [reflexivity|].
  destruct (emitter_follows_buckets Toy.three Toy.three_headers eq_refl)
    as (_ & _ & _ & Htransform & _).
  apply (Htransform "IDE" MultiLabelCategorical).
  - apply list_elem_of_In. simpl. tauto.
  - reflexivity.
Defined.

(** C6, at the failing input.  With the header ['ShoeSize'] in no bucket,
    cell 18 prints the error line, leaves the loop and still writes
    [transforms.json]: the file holds the directive of ['Respondent']
    only, and nothing is raised.  The whole notebook on that input ends
    without an exception, after writing [schema.json] too. *)
Theorem emit_transforms_unknown_label_writes :
  emit_transforms Toy.unknown_label Toy.unknown_label_headers
  = ([EvPrint "Error: ShoeSize is an unknown label";
      EvWrite transform_path (TransformsJson {[ "Respondent" := "key" ]})],
     Ok tt)
  /\ outcome (notebook Toy.unknown_label Toy.unknown_label_world) = Ok tt
  /\ List.existsb is_write (trace (notebook Toy.unknown_label Toy.unknown_label_world))
     = true.
Proof. split; [reflexivity | split; vm_compute; reflexivity]. Qed.

(** An ASCII byte is decoded by itself, so [json.dumps] never fails on
    an ASCII string. *)
Lemma utf8_lead_ascii (c : ascii) :
  is_ascii c = true -> utf8_lead (N_of_ascii c) = Some Utf8Start.
Proof.
  destruct c as [[] [] [] [] [] [] [] []]; vm_compute; congruence.
Qed.

Lemma json_encodes_ascii (s : string) :
  PyString.forallb is_ascii s = true -> json_encodes s = true.
Proof.
  unfold json_encodes, utf8_decodes.
  induction s as [|x s IH]; [reflexivity|].
  cbn [PyString.forallb utf8_decodes_from]. intros H.
  apply andb_true_iff in H as [Hx Hs].
  rewrite (utf8_lead_ascii x Hx). now apply IH.
Qed.

Lemma schema_entry_encodes c h :
  json_encodes (name (schema_entry_of c h)) && json_encodes (type (schema_entry_of c h))
  = json_encodes h.
Proof.
  unfold schema_entry_of.
  destruct (py_in h (numerical_cols c)); [apply andb_true_r|].
  destruct (py_in h (key_cols c)); apply andb_true_r.
Qed.

(** The decoder on a two-byte character, on a lone 0xFF, on a sequence
    cut short, on an overlong form and on an encoded surrogate. *)
Example utf8_decodes_samples :
  utf8_decodes (String (ascii_of_nat 195) (String (ascii_of_nat 169) "t")) = true
  /\ utf8_decodes (String (ascii_of_nat 255) "") = false
  /\ utf8_decodes (String (ascii_of_nat 195) "") = false
  /\ utf8_decodes (String (ascii_of_nat 192) (String (ascii_of_nat 128) "")) = false
  /\ utf8_decodes (String (ascii_of_nat 237)
                     (String (ascii_of_nat 160) (String (ascii_of_nat 128) ""))) = true.
Proof. split; [reflexivity|]. split; [reflexivity|]. split; [reflexivity|]. split; reflexivity. Qed.

(** Cell 17 fails exactly when [json.dumps] cannot decode a header. *)
Lemma emit_schema_cases c headers :
  emit_schema c headers
  = if List.forallb json_encodes headers
    then ([EvWrite schema_path (SchemaJson (build_schema c headers []))], Ok tt)
    else ([EvWrite schema_path EmptyFile], Raise UnicodeDecodeError).
Proof.
  unfold emit_schema.
  replace (List.forallb _ (build_schema c headers []))
    with (List.forallb json_encodes headers); [reflexivity|].
  rewrite build_schema_map. simpl.
  induction headers as [|h hs IH]; [reflexivity|].
  simpl. now rewrite schema_entry_encodes, IH.
Qed.

(** C10 as stated fails on a header that is not valid UTF-8: the loop
    builds the entry, but the [json.dumps] of cell 17 raises
    [UnicodeDecodeError] and [schema.json] is left empty. *)
Lemma emit_schema_raises_on_undecodable_header :
  build_schema Toy.three [String (ascii_of_nat 255) "Salary"] []
  = [ {| name := String (ascii_of_nat 255) "Salary"; type := "STRING" |} ]
  /\ emit_schema Toy.three [String (ascii_of_nat 255) "Salary"]
     = ([EvWrite schema_path EmptyFile], Raise UnicodeDecodeError).
Proof. split; reflexivity. Qed.

(** C10, amended.  The schema loop has no failing branch and no
    completeness guard: for every header list and every table it yields
    one entry per header in header order; a header that is neither in
    [numerical_cols] nor in [key_cols] gets STRING; in particular a
    header in no bucket at all gets STRING from the schema loop while
    the transforms loop takes its error branch.  Cell 17 then writes the
    schema, unless [json.dumps] cannot decode some header as UTF-8, in
    which case it raises [UnicodeDecodeError] and leaves the file empty;
    it never raises on ASCII headers. *)
Theorem schema_emission_unguarded (c : columns) (headers : list string) :
  let schema := build_schema c headers [] in
  List.map name schema = headers
  /\ (forall i h,
        headers !! i = Some h ->
        py_in h (numerical_cols c) = false -> py_in h (key_cols c) = false ->
        schema !! i = Some {| name := h; type := "STRING" |})
  /\ (forall i h,
        headers !! i = Some h -> buckets_of c h = [] ->
        schema !! i = Some {| name := h; type := "STRING" |}
        /\ transform_of c h = None)
  /\ emit_schema c headers
     = (if List.forallb json_encodes headers
        then ([EvWrite schema_path (SchemaJson schema)], Ok tt)
        else ([EvWrite schema_path EmptyFile], Raise UnicodeDecodeError))
  /\ (List.forallb (PyString.forallb is_ascii) headers = true ->
      emit_schema c headers = ([EvWrite schema_path (SchemaJson schema)], Ok tt)).
Proof.
  intros schema. split; [apply build_schema_names|].
  split; [|split; [|split; [apply emit_schema_cases|]]].
  - intros i h Hi Hnum Hkey. unfold schema.
    rewrite (build_schema_lookup c headers i h Hi).
    unfold schema_entry_of. now rewrite Hnum, Hkey.
  - intros i h Hi Hnone. unfold schema.
    rewrite (build_schema_lookup c headers i h Hi).
    destruct (unassigned_emits c h Hnone) as [-> ->]. split; reflexivity.
  - intros Hascii. rewrite emit_schema_cases.
    assert (List.forallb json_encodes headers = true) as ->; [|reflexivity].
    rewrite List.forallb_forall in Hascii |- *.
    intros h Hh. apply json_encodes_ascii. now apply Hascii.
Qed.

Lemma schema_emission_unguarded_witness :
  Toy.unknown_label_headers !! 1 = Some "ShoeSize"
  /\ buckets_of Toy.unknown_label "ShoeSize" = []
  /\ build_schema Toy.unknown_label Toy.unknown_label_headers [] !! 1
     = Some {| name := "ShoeSize"; type := "STRING" |}
  /\ transform_of Toy.unknown_label "ShoeSize" = None
  /\ outcome (emit_schema Toy.unknown_label Toy.unknown_label_headers) = Ok tt.
Proof.
  split; [reflexivity|]. split; [reflexivity|].
  destruct (schema_emission_unguarded Toy.unknown_label Toy.unknown_label_headers)
    as (_ & _ & Hnone & _ & Hascii).
  destruct (Hnone 1 "ShoeSize") as [Hs Ht]; [reflexivity | reflexivity |].
  split; [exact Hs|]. split; [exact Ht|].
  now rewrite (Hascii eq_refl).
Defined.

(** ** The dataset cleaner: claim C7 *)

Lemma mapM_Forall2 {A B} (f : A -> result B) (l : list A) (l' : list B) :
  mapM f l = Ok l' -> Forall2 (fun x y => f x = Ok y) l l'.
Proof.
  revert l'. induction l as [|x l IH]; intros l'; simpl.
  - intros [= <-]. constructor.
  - destruct (f x) as [y|e] eqn:Hx; simpl; [|discriminate].
    destruct (mapM f l) as [ys|e]; simpl; [|discriminate].
    intros [= <-]. constructor; [exact Hx | now apply IH].
Qed.

Lemma cells_kept_refl (cells : list pyvalue) : Forall2 (rtc clean_step) cells cells.
Proof. induction cells; constructor; [apply rtc_refl | assumption]. Qed.

Lemma cells_kept_trans (a b d : list pyvalue) :
  Forall2 (rtc clean_step) a b -> Forall2 (rtc clean_step) b d ->
  Forall2 (rtc clean_step) a d.
Proof.
  intros Hab. revert d. induction Hab as [|x y a b Hxy _ IH]; intros d Hbd.
  - inversion Hbd. constructor.
  - inversion Hbd as [|? z ? d' Hyz Hrest]; subst.
    constructor; [now apply rtc_trans with y | now apply IH].
Qed.

Lemma column_kept_refl c a : column_kept c a a.
Proof. split; [reflexivity|]. split; [apply cells_kept_refl | reflexivity]. Qed.

Lemma column_kept_trans c a b d :
  column_kept c a b -> column_kept c b d -> column_kept c a d.
Proof.
  intros (Hn1 & Hc1 & Hu1) (Hn2 & Hc2 & Hu2). split; [congruence|].
  split; [now apply cells_kept_trans with (snd b)|].
  intros Hu. rewrite (Hu1 Hu). apply Hu2. now rewrite <- Hn1.
Qed.

Lemma frame_kept_refl c df : frame_kept c df df.
Proof. induction df; constructor; [apply column_kept_refl | assumption]. Qed.

Lemma frame_kept_trans c df1 df2 df3 :
  frame_kept c df1 df2 -> frame_kept c df2 df3 -> frame_kept c df1 df3.
Proof.
  intros H12. revert df3. induction H12 as [|a b df1 df2 Hab _ IH]; intros df3 H23.
  - inversion H23. constructor.
  - inversion H23 as [|? d ? df3' Hbd Hrest]; subst.
    constructor; [now apply column_kept_trans with b | now apply IH].
Qed.

(** Assigning to a column [cleanup_df] may rewrite, with cells cleaned
    from the cells it had. *)
Lemma setitem_kept c df col cells cells' :
  touched c col = true ->
  getitem df col = Ok cells ->
  Forall2 (rtc clean_step) cells cells' ->
  frame_kept c df (setitem df col cells').
Proof.
  intros Ht. induction df as [|[name old] df IH]; simpl; [discriminate|].
  destruct (String.eqb_spec name col) as [->|Hne].
  - intros [= ->] Hcells. constructor; [|apply frame_kept_refl].
    split; [reflexivity|]. split; [exact Hcells|].
    simpl. congruence.
  - intros Hget Hcells. constructor; [apply column_kept_refl | now apply IH].
Qed.

Lemma assign_apply_preserves c col f :
  touched c col = true ->
  (forall x y, f x = Ok y -> clean_step x y) ->
  preserves_frame c (assign_apply col f).
Proof.
  intros Ht Hf df. unfold assign_apply.
  destruct (getitem df col) as [cells|e] eqn:Hget; simpl; [|apply frame_kept_refl].
  destruct (mapM f cells) as [cells'|e] eqn:Hmap; simpl; [|apply frame_kept_refl].
  apply (setitem_kept c df col cells cells' Ht Hget).
  apply mapM_Forall2 in Hmap.
  eapply Forall2_impl; [exact Hmap|].
  intros x y Hxy. apply rtc_once. now apply Hf.
Qed.

Lemma skip_preserves c : preserves_frame c skip.
Proof. intros df. apply frame_kept_refl. Qed.

Lemma and_then_preserves c s1 s2 :
  preserves_frame c s1 -> preserves_frame c s2 -> preserves_frame c (and_then s1 s2).
Proof.
  intros H1 H2 df. unfold and_then. specialize (H1 df).
  destruct (s1 df) as [df1 [u|e]]; simpl in *; [|exact H1].
  apply frame_kept_trans with df1; [exact H1 | apply H2].
Qed.

Lemma when_preserves c (b : bool) s :
  (b = true -> preserves_frame c s) -> preserves_frame c (when b s).
Proof. destruct b; simpl; [auto | intros _; apply skip_preserves]. Qed.

Lemma for_each_preserves {A} c (l : list A) body :
  (forall x, preserves_frame c (body x)) -> preserves_frame c (for_each l body).
Proof.
  intros Hbody. induction l as [|x l IH]; simpl;
    [apply skip_preserves | now apply and_then_preserves].
Qed.

Lemma cleanup_df_preserves c headers : preserves_frame c (cleanup_df c headers).
Proof.
  unfold cleanup_df. apply for_each_preserves. intros col.
  repeat apply and_then_preserves; apply when_preserves; intros Hb;
    apply assign_apply_preserves;
    try (unfold touched; rewrite Hb; now rewrite ?orb_true_r);
    intros x y Hxy; [left | left | right]; exact Hxy.
Qed.

(** C7. Whatever the frame and the headers, and whether [cleanup_df]
    returns or raises, the frame it leaves has the same columns in the
    same order; in each column, the cell of each row comes from the cell
    of that row by the cleaning functions; and a column that is neither
    ['Currency'] nor ['Race'] nor a multi-label column has all its cells
    unchanged. *)
Theorem cleanup_df_frame (c : columns) (headers : list string) (df : DataFrame) :
  let df' := fst (cleanup_df c headers df) in
  column_names df' = column_names df
  /\ forall i col cells,
       df !! i = Some (col, cells) ->
       exists cells',
         df' !! i = Some (col, cells')
         /\ Forall2 (rtc clean_step) cells cells'
         /\ (touched c col = false -> cells' = cells).
Proof.
  intros df'. pose proof (cleanup_df_preserves c headers df) as Hkept.
  fold df' in Hkept. split.
  - unfold column_names. clear -Hkept.
    induction Hkept as [|a b l l' (Hn & _) _ IH]; simpl; [reflexivity|].
    now rewrite IH, Hn.
  - intros i col cells Hi.
    destruct (Forall2_lookup_l _ _ _ _ _ Hkept Hi) as ([col' cells'] & Hi' & Hn & Hc & Hu).
    simpl in Hn, Hc, Hu. subst col'. exists cells'.
    split; [exact Hi'|]. split; [exact Hc|].
    intros Hcol. symmetry. now apply Hu.
Qed.

Lemma cleanup_df_frame_witness :
  Toy.frame !! 3 = Some ("Salary", [PyFloat 42; PyFloat nan])
  /\ touched Toy.three "Salary" = false
  /\ fst (cleanup_df Toy.three ["Respondent"; "Currency"; "IDE"; "Salary"] Toy.frame) !! 3
     = Some ("Salary", [PyFloat 42; PyFloat nan]).
Proof.
  split; [reflexivity|]. split; [reflexivity|].
  destruct (cleanup_df_frame Toy.three ["Respondent"; "Currency"; "IDE"; "Salary"] Toy.frame)
    as [_ Hcells].
  destruct (Hcells 3 "Salary" [PyFloat 42; PyFloat nan] eq_refl)
    as (cells' & Hi & _ & Hsame).
  rewrite Hi, (Hsame eq_refl). reflexivity.
Defined.

Example cleanup_df_toy :
  cleanup_df Toy.three ["Respondent"; "Currency"; "IDE"; "Salary"] Toy.frame
  = ([("Respondent", [PyInt 1; PyInt 2]);
      ("Currency", [PyStr "Euros"; PyFloat nan]);
      ("IDE", [PyStr "Vim Emacs"; PyStr "Visual_Studio"]);
      ("Salary", [PyFloat 42; PyFloat nan])], Ok tt).
Proof. reflexivity. Qed.

(** ** The notebook run: claims C1 and C9, and the column count *)

Lemma nb_bind_ok {A B} (t : list event) (a : A) (k : A -> NB B) :
  nb_bind (t, Ok a) k = (t ++ trace (k a), outcome (k a)).
Proof. unfold nb_bind. now destruct (k a). Qed.

Lemma nb_bind_raise {A B} (t : list event) (e : exn) (k : A -> NB B) :
  nb_bind (t, Raise e) k = (t, Raise e).
Proof. reflexivity. Qed.

Lemma check_input_files_ok w :
  check_input_files w = (trace (check_input_files w), Ok tt).
Proof. unfold check_input_files. now destruct (_ || _). Qed.

Lemma check_input_files_quiet w :
  List.existsb is_write (trace (check_input_files w)) = false
  /\ List.existsb (reads survey_results_path) (trace (check_input_files w)) = false.
Proof. unfold check_input_files. destruct (_ || _); split; reflexivity. Qed.

Lemma read_headers_ok w headers :
  outcome (read_headers w) = Ok headers ->
  read_headers w = ([EvRead survey_schema_path], Ok headers).
Proof.
  unfold read_headers. destruct (schema_csv w) as [[|r rows]|]; try discriminate.
  unfold lift, emit. rewrite nb_bind_ok. simpl. now intros ->.
Qed.

Lemma mapM_first_field_raises rows e :
  mapM first_field rows = Raise e -> e = IndexError.
Proof.
  induction rows as [|r rows IH]; simpl; [discriminate|].
  destruct r as [|x r]; simpl; [congruence|].
  destruct (mapM first_field rows); simpl; [discriminate|].
  intros [= <-]. now apply IH.
Qed.

Lemma length_all_columns c :
  length (all_columns c)
  = length (key_cols c) + 1 + length (single_label_cols c)
    + length (multi_label_cols c) + length (numerical_cols c).
Proof.
  unfold all_columns. rewrite !length_app, !length_map. simpl. lia.
Qed.

(** The run up to the [assert], when the header count is wrong. *)
Lemma notebook_stops_at_assert c w headers :
  outcome (read_headers w) = Ok headers ->
  check_column_count c headers = Raise AssertionError ->
  notebook c w
  = (EvMkdir clean_folder :: trace (check_input_files w) ++ [EvRead survey_schema_path],
     Raise AssertionError).
Proof.
  intros Hread Hcheck. unfold notebook, emit, lift.
  rewrite nb_bind_ok, check_input_files_ok, nb_bind_ok.
  rewrite (read_headers_ok w headers Hread), nb_bind_ok, Hcheck.
  reflexivity.
Qed.

(** C1, at the failing input.  Four names are registered for four
    headers, ['Salary'] in two buckets and ['Country'] in none: the table
    does not partition the headers, yet the [assert] of cell 12, which
    its comment says is there to check that no column was missed,
    compares two lengths only and passes.  The transforms loop, which
    tests membership, does take its error branch for ['Country']. *)
Theorem check_column_count_misses_misassignment :
  partitions Toy.miscounted Toy.miscounted_headers = false
  /\ buckets_of Toy.miscounted "Country" = []
  /\ buckets_of Toy.miscounted "Salary" = [Numerical; SingleLabelCategorical]
  /\ check_column_count Toy.miscounted Toy.miscounted_headers = Ok tt
  /\ transform_of Toy.miscounted "Country" = None.
Proof.
  split; [reflexivity|]. split; [reflexivity|]. split; [reflexivity|].
  split; reflexivity.
Qed.

(** X13. With the headers read from the schema file, the [assert] of
    cell 12 compares the number of registered columns (key, the target,
    single-label, multi-label and numerical ones) with the number of
    headers: it raises exactly when the two differ.  When it raises, the
    run stops there with [AssertionError]: the results file has not been
    read and no file has been written. *)
Theorem check_column_count_raises_iff (c : columns) (w : world) (headers : list string) :
  outcome (read_headers w) = Ok headers ->
  let registered :=
    length (key_cols c) + 1 + length (single_label_cols c)
    + length (multi_label_cols c) + length (numerical_cols c) in
  (check_column_count c headers = Raise AssertionError
   <-> registered <> length headers)
  /\ (check_column_count c headers = Ok tt <-> registered = length headers)
  /\ (registered <> length headers ->
      outcome (notebook c w) = Raise AssertionError
      /\ List.existsb (reads survey_results_path) (trace (notebook c w)) = false
      /\ List.existsb is_write (trace (notebook c w)) = false).
Proof.
  intros Hread registered.
  assert (Hcount : check_column_count c headers
                   = if Nat.eqb registered (length headers)
                     then Ok tt else Raise AssertionError).
  { unfold check_column_count, registered. now rewrite length_all_columns. }
  assert (Hraise : registered <> length headers ->
                   check_column_count c headers = Raise AssertionError).
  { intros Hne. rewrite Hcount. now apply Nat.eqb_neq in Hne as ->. }
  split; [|split].
  - split; [|exact Hraise]. rewrite Hcount.
    destruct (Nat.eqb_spec registered (length headers)); [discriminate | auto].
  - rewrite Hcount.
    destruct (Nat.eqb_spec registered (length headers)); split; congruence.
  - intros Hne.
    rewrite (notebook_stops_at_assert c w headers Hread (Hraise Hne)).
    destruct (check_input_files_quiet w) as [Hw Hr].
    cbn [trace outcome fst snd]. split; [reflexivity|].
    cbn [List.existsb]. rewrite !List.existsb_app, Hw, Hr. split; reflexivity.
Qed.

Lemma check_column_count_raises_iff_witness :
  outcome (read_headers Toy.short_schema_world) = Ok ["Salary"; "Country"]
  /\ outcome (notebook Toy.three Toy.short_schema_world) = Raise AssertionError
  /\ List.existsb (reads survey_results_path)
       (trace (notebook Toy.three Toy.short_schema_world)) = false.
Proof.
  split; [reflexivity|].
  destruct (check_column_count_raises_iff Toy.three Toy.short_schema_world
              ["Salary"; "Country"] eq_refl) as (_ & _ & Hrun).
  destruct Hrun as (Hout & Hread & _); [simpl; lia|].
  split; assumption.
Defined.

(** C9 as stated fails: with the results file absent, the check of cell
    7 prints its lines and raises nothing, and the run goes on to the
    column-count [assert], which is where it stops when the schema file
    does not have as many rows as the table has columns. *)
Lemma missing_results_fails_with_assertion :
  results_csv Toy.no_results_world = None
  /\ check_input_files Toy.no_results_world = (missing_files_message, Ok tt)
  /\ outcome (notebook survey_columns Toy.no_results_world) = Raise AssertionError.
Proof. split; [reflexivity | split; [reflexivity | vm_compute; reflexivity]]. Qed.

(** C9, amended.  When either input file is absent, cell 7 prints the
    error line and the two lines that say where to download the files
    and where to put them, and raises nothing; the run then stops at a
    later cell with an exception: [IOError] on the schema file when that
    one is absent, otherwise an exception of reading the headers, the
    [AssertionError] of cell 12, or [IOError] on the results file.  In
    every case no file has been written. *)
Theorem missing_input_file_run (c : columns) (w : world) :
  results_csv w = None \/ schema_csv w = None ->
  check_input_files w = (missing_files_message, Ok tt)
  /\ (exists rest,
        trace (notebook c w)
        = EvMkdir clean_folder :: missing_files_message ++ rest)
  /\ List.existsb is_write (trace (notebook c w)) = false
  /\ (schema_csv w = None ->
      outcome (notebook c w) = Raise (IOError survey_schema_path))
  /\ (exists e,
        outcome (notebook c w) = Raise e
        /\ (e = IOError survey_schema_path \/ e = IOError survey_results_path
            \/ e = StopIteration \/ e = IndexError \/ e = AssertionError)).
Proof.
  intros Hmissing.
  assert (Hcheck : check_input_files w = (missing_files_message, Ok tt)).
  { unfold check_input_files.
    destruct Hmissing as [-> | ->]; [reflexivity|].
    now destruct (results_csv w). }
  split; [exact Hcheck|].
  unfold notebook, emit. rewrite nb_bind_ok, Hcheck, nb_bind_ok.
  unfold read_headers.
  destruct (schema_csv w) as [rows|] eqn:Hschema.
  - destruct Hmissing as [Hresults|]; [|discriminate].
    unfold emit. rewrite nb_bind_ok.
    destruct rows as [|r rows].
    { split; [eexists; reflexivity|]. split; [reflexivity|].
      split; [discriminate|]. exists StopIteration. split; [reflexivity|tauto]. }
    unfold lift. destruct (mapM first_field rows) as [headers|e] eqn:Hrows;
      cbn [trace outcome fst snd].
    + rewrite nb_bind_ok.
      destruct (check_column_count c headers) as [[]|e] eqn:Hcount.
      * rewrite nb_bind_ok. unfold read_csv. rewrite Hresults.
        split; [eexists; reflexivity|]. split; [reflexivity|].
        split; [discriminate|].
        exists (IOError survey_results_path). split; [reflexivity|tauto].
      * assert (e = AssertionError) as ->.
        { unfold check_column_count in Hcount.
          destruct (Nat.eqb _ _); congruence. }
        split; [eexists; reflexivity|]. split; [reflexivity|].
        split; [discriminate|].
        exists AssertionError. split; [reflexivity|tauto].
    + apply mapM_first_field_raises in Hrows as ->.
      split; [eexists; reflexivity|]. split; [reflexivity|].
      split; [discriminate|]. exists IndexError. split; [reflexivity|tauto].
  - split; [eexists; reflexivity|]. split; [reflexivity|].
    split; [reflexivity|].
    exists (IOError survey_schema_path). split; [reflexivity|tauto].
Qed.

Lemma missing_input_file_run_witness :
  schema_csv Toy.no_schema_world = None
  /\ outcome (notebook survey_columns Toy.no_schema_world)
     = Raise (IOError survey_schema_path)
  /\ List.existsb is_write (trace (notebook survey_columns Toy.no_schema_world))
     = false.
Proof.
  split; [reflexivity|].
  destruct (missing_input_file_run survey_columns Toy.no_schema_world
              (or_intror eq_refl)) as (_ & _ & Hwrite & Hschema & _).
  split; [exact (Hschema eq_refl) | exact Hwrite].
Defined.

(** ** The notebook's own table and docstring *)

Example update_multi_label_cols_docstring :
  update_multi_label_cols
    (PyStr "Stock options; Annual bonus; Vacation/days off; Equipment; Meals")
  = Ok (PyStr "Stock_options Annual_bonus Vacation/days_off Equipment Meals").
Proof. reflexivity. Qed.

(** Cell 11 registers 154 columns, each once. *)
Example survey_columns_count : length (all_columns survey_columns) = 154.
Proof. reflexivity. Qed.

Example survey_columns_distinct : NoDup (all_columns survey_columns).
Proof. refine (bool_decide_unpack _ _). vm_compute. exact I. Qed.

(** On the headers it registers, the notebook's table is a partition. *)
Example survey_columns_partition :
  partitions survey_columns
    (List.flat_map (fun o => match o with Some h => [h] | None => [] end)
       (all_columns survey_columns)) = true.
Proof. vm_compute. reflexivity. Qed.

(** ** Further properties of the cleaning functions *)

Lemma semi_scan_replace_from (n : nat) :
  forall s, String.length s <= n ->
            semi_scan s (PyString.replace_from "; " ";" 0 s).
Proof.
  induction n as [|n IH]; intros s Hlen.
  - destruct s; [constructor | simpl in Hlen; lia].
  - destruct s as [|x s]; [constructor|].
    cbn [PyString.replace_from].
    destruct (PyString.startswith "; " (String x s)) eqn:Hst.
    + cbn [PyString.startswith] in Hst. apply andb_true_iff in Hst as [Hx Hs].
      apply Ascii.eqb_eq in Hx. subst x.
      destruct s as [|y s]; [discriminate|].
      cbn [PyString.startswith] in Hs. apply andb_true_iff in Hs as [Hy _].
      apply Ascii.eqb_eq in Hy. subst y.
      rewrite append_cons, append_nil_l.
      cbn [String.length Nat.sub PyString.replace_from].
      apply semi_scan_hit, IH. simpl in Hlen. lia.
    + apply semi_scan_copy; [exact Hst|]. apply IH. simpl in Hlen. lia.
Qed.

Lemma semi_scan_replace s : semi_scan s (PyString.replace "; " ";" s).
Proof. apply (semi_scan_replace_from (String.length s)). lia. Qed.

Lemma semi_scan_count s r :
  semi_scan s r -> count_char ";" r = count_char ";" s.
Proof.
  induction 1 as [|s r _ IH|x s r _ _ IH]; cbn [count_char];
    [reflexivity | now rewrite IH | now rewrite IH].
Qed.

Lemma semi_scan_length s r :
  semi_scan s r -> String.length r <= String.length s.
Proof. induction 1; simpl; lia. Qed.

Lemma semi_scan_forallb f s r :
  semi_scan s r -> PyString.forallb f s = true -> PyString.forallb f r = true.
Proof.
  induction 1 as [|s r _ IH|x s r _ _ IH]; cbn [PyString.forallb]; intros Hf.
  - reflexivity.
  - apply andb_true_iff in Hf as [Hsemi Hf]. apply andb_true_iff in Hf as [_ Hf].
    rewrite Hsemi. now apply IH.
  - apply andb_true_iff in Hf as [Hx Hf]. rewrite Hx. now apply IH.
Qed.

Lemma count_map_other a b c s :
  c <> a -> c <> b ->
  count_char c (PyString.map (PyString.subst_char a b) s) = count_char c s.
Proof.
  intros Ha Hb. induction s as [|x s IH]; [reflexivity|].
  cbn [PyString.map count_char]. rewrite IH. f_equal.
  unfold PyString.subst_char. destruct (Ascii.eqb_spec a x) as [<-|_]; [|reflexivity].
  apply Ascii.eqb_neq in Ha, Hb. now rewrite Ha, Hb.
Qed.

Lemma count_map_source a b s :
  a <> b -> count_char a (PyString.map (PyString.subst_char a b) s) = 0.
Proof.
  intros Hab. induction s as [|x s IH]; [reflexivity|].
  cbn [PyString.map count_char]. rewrite IH. unfold PyString.subst_char.
  destruct (Ascii.eqb_spec a x) as [<-|Hax].
  - apply Ascii.eqb_neq in Hab. now rewrite Hab.
  - apply Ascii.eqb_neq in Hax. now rewrite Hax.
Qed.

Lemma count_map_image a b s :
  a <> b ->
  count_char b (PyString.map (PyString.subst_char a b) s)
  = count_char a s + count_char b s.
Proof.
  intros Hab. induction s as [|x s IH]; [reflexivity|].
  cbn [PyString.map count_char]. rewrite IH. unfold PyString.subst_char.
  destruct (Ascii.eqb_spec a x) as [<-|Hax].
  - rewrite Ascii.eqb_refl.
    assert (Ascii.eqb b a = false) as -> by (apply Ascii.eqb_neq; congruence).
    lia.
  - destruct (Ascii.eqb b x); lia.
Qed.

Lemma length_map_subst a b s :
  String.length (PyString.map (PyString.subst_char a b) s) = String.length s.
Proof. induction s as [|x s IH]; simpl; [reflexivity | now rewrite IH]. Qed.

Lemma forallb_map_subst f a b s :
  f b = true -> PyString.forallb f s = true ->
  PyString.forallb f (PyString.map (PyString.subst_char a b) s) = true.
Proof.
  intros Hb. induction s as [|x s IH]; [reflexivity|].
  cbn [PyString.map PyString.forallb]. intros H.
  apply andb_true_iff in H as [Hx Hs]. rewrite (IH Hs), andb_true_r.
  unfold PyString.subst_char. now destruct (Ascii.eqb a x).
Qed.

Lemma forallb_weaken (f g : ascii -> bool) s :
  (forall c, f c = true -> g c = true) ->
  PyString.forallb f s = true -> PyString.forallb g s = true.
Proof.
  intros Hfg. induction s as [|x s IH]; [reflexivity|].
  cbn [PyString.forallb]. intros H. apply andb_true_iff in H as [Hx Hs].
  now rewrite (Hfg x Hx), IH.
Qed.

Lemma count_filter_kept f c s :
  f c = true -> count_char c (PyString.filter f s) = count_char c s.
Proof.
  intros Hc. induction s as [|x s IH]; [reflexivity|].
  cbn [PyString.filter count_char]. destruct (f x) eqn:Hx.
  - cbn [count_char]. now rewrite IH.
  - rewrite IH. destruct (Ascii.eqb_spec c x) as [->|_]; [congruence|reflexivity].
Qed.

Lemma count_filter_dropped f c s :
  f c = false -> count_char c (PyString.filter f s) = 0.
Proof.
  intros Hc. induction s as [|x s IH]; [reflexivity|].
  cbn [PyString.filter]. destruct (f x) eqn:Hx; [|exact IH].
  cbn [count_char]. rewrite IH.
  destruct (Ascii.eqb_spec c x) as [->|_]; [congruence|reflexivity].
Qed.

Lemma length_filter f s :
  String.length (PyString.filter f s) <= String.length s.
Proof.
  induction s as [|x s IH]; [reflexivity|].
  cbn [PyString.filter]. destruct (f x); simpl; lia.
Qed.

(** X1. On every string, [update_multi_label_cols] returns a string
    that has no [';'], that has exactly as many spaces as the input has
    [';'] (each separator becomes one space, and no other space is
    left), and that is no longer than the input. *)
Theorem update_multi_label_cols_separators (s : string) :
  exists r : string,
    update_multi_label_cols (PyStr s) = Ok (PyStr r)
    /\ count_char ";" r = 0
    /\ count_char " " r = count_char ";" s
    /\ String.length r <= String.length s.
Proof.
  eexists. split; [apply update_multi_label_cols_passes|].
  pose proof (semi_scan_replace s) as Hscan.
  split; [now apply count_map_source|]. split.
  - rewrite count_map_image by discriminate.
    rewrite (count_map_source " " "_") by discriminate.
    rewrite count_map_other by discriminate.
    rewrite (semi_scan_count _ _ Hscan). lia.
  - rewrite !length_map_subst. now apply semi_scan_length.
Qed.

(** X2. [update_multi_label_cols] introduces no character outside
    [string.printable]: a string of printable characters is mapped to
    one.  So a cell cleaned as ['Race'] cells are, by [convert_to_ascii]
    and then [update_multi_label_cols], holds printable characters only,
    whatever the bytes of the input. *)
Theorem cleaned_cell_printable (s : string) :
  (PyString.forallb in_printable s = true ->
   exists r,
     update_multi_label_cols (PyStr s) = Ok (PyStr r)
     /\ PyString.forallb in_printable r = true)
  /\ exists r,
       rbind (convert_to_ascii (PyStr s)) update_multi_label_cols = Ok (PyStr r)
       /\ PyString.forallb in_printable r = true.
Proof.
  assert (Hkeep : forall t, PyString.forallb in_printable t = true ->
            exists r, update_multi_label_cols (PyStr t) = Ok (PyStr r)
                      /\ PyString.forallb in_printable r = true).
  { intros t Ht. eexists. split; [apply update_multi_label_cols_passes|].
    apply forallb_map_subst; [reflexivity|].
    apply forallb_map_subst; [reflexivity|].
    exact (semi_scan_forallb _ _ _ (semi_scan_replace t) Ht). }
  split; [apply Hkeep|].
  cbn [convert_to_ascii rbind]. apply Hkeep, filter_forallb.
Qed.

Lemma cleaned_cell_printable_witness :
  PyString.forallb in_printable "East Asian; White" = true
  /\ exists r,
       update_multi_label_cols (PyStr "East Asian; White") = Ok (PyStr r)
       /\ PyString.forallb in_printable r = true.
Proof.
  split; [reflexivity|].
  apply (proj1 (cleaned_cell_printable "East Asian; White")). reflexivity.
Defined.

(** X3. On every string, [convert_to_ascii] returns a string of ASCII
    characters only, as its docstring says; it keeps every occurrence
    of each character of [string.printable], keeps no occurrence of any
    other character, and never returns a longer string. *)
Theorem convert_to_ascii_output (s : string) :
  exists t : string,
    convert_to_ascii (PyStr s) = Ok (PyStr t)
    /\ PyString.forallb is_ascii t = true
    /\ (forall c, in_printable c = true -> count_char c t = count_char c s)
    /\ (forall c, in_printable c = false -> count_char c t = 0)
    /\ String.length t <= String.length s.
Proof.
  eexists. split; [reflexivity|]. split; [|split; [|split]].
  - apply forallb_weaken with in_printable; [apply in_printable_is_ascii|].
    apply filter_forallb.
  - intros c Hc. now apply count_filter_kept.
  - intros c Hc. now apply count_filter_dropped.
  - apply length_filter.
Qed.

Lemma convert_to_ascii_output_witness :
  in_printable "e" = true
  /\ exists t,
       convert_to_ascii (PyStr (String (ascii_of_nat 233) "euro")) = Ok (PyStr t)
       /\ count_char "e" t = 1.
Proof.
  split; [reflexivity|].
  destruct (convert_to_ascii_output (String (ascii_of_nat 233) "euro"))
    as (t & Hrun & _ & Hkept & _).
  exists t. split; [exact Hrun|]. now rewrite (Hkept "e"%char eq_refl).
Defined.

(** ** Further properties of [cleanup_df] *)

Lemma cleanup_df_loop c headers :
  cleanup_df c headers = for_each headers (loop_body c).
Proof. reflexivity. Qed.

Lemma clean_step_type x y : clean_step x y -> type_of x = type_of y.
Proof.
  destruct x; intros [H|H]; simpl in H; try discriminate;
    injection H as <-; reflexivity.
Qed.

Lemma cleaned_type x y : rtc clean_step x y -> type_of x = type_of y.
Proof.
  induction 1 as [|x y z Hxy _ IH]; [reflexivity|].
  now rewrite (clean_step_type x y Hxy).
Qed.

Lemma frame_kept_names c df df' :
  frame_kept c df df' -> column_names df' = column_names df.
Proof.
  unfold column_names.
  induction 1 as [|a b l l' (Hn & _) _ IH]; simpl; [reflexivity|].
  now rewrite IH, Hn.
Qed.

Lemma frame_kept_back c df df' col cells' :
  frame_kept c df df' -> (col, cells') ∈ df' ->
  exists cells, (col, cells) ∈ df /\ Forall2 (rtc clean_step) cells cells'.
Proof.
  intros Hkept Hin. apply list_elem_of_lookup in Hin as [i Hi].
  destruct (Forall2_lookup_r _ _ _ _ _ Hkept Hi) as ([col0 cells] & Hi0 & Hn & Hc & _).
  simpl in Hn, Hc. subst col0. exists cells. split; [|exact Hc].
  eapply list_elem_of_lookup_2, Hi0.
Qed.

Lemma no_int_back (cells cells' : list pyvalue) :
  Forall2 (rtc clean_step) cells cells' ->
  (exists n, PyInt n ∈ cells') -> exists m, PyInt m ∈ cells.
Proof.
  intros Hc [n Hin]. apply list_elem_of_lookup in Hin as [i Hi].
  destruct (Forall2_lookup_r _ _ _ _ _ Hc Hi) as (x & Hx & Hrtc).
  apply cleaned_type in Hrtc. destruct x as [s|f|m]; try discriminate.
  exists m. eapply list_elem_of_lookup_2, Hx.
Qed.

Lemma getitem_elem df col cells :
  getitem df col = Ok cells -> (col, cells) ∈ df.
Proof.
  induction df as [|[name old] df IH]; simpl; [discriminate|].
  destruct (String.eqb_spec name col) as [->|_].
  - intros [= ->]. left.
  - intros H. right. now apply IH.
Qed.

Lemma getitem_raise df col e :
  getitem df col = Raise e -> e = KeyError col /\ col ∉ column_names df.
Proof.
  induction df as [|[name old] df IH]; simpl.
  - intros [= <-]. split; [reflexivity|]. apply not_elem_of_nil.
  - destruct (String.eqb_spec name col) as [->|Hne]; [discriminate|].
    intros H. destruct (IH H) as [-> Hnin]. split; [reflexivity|].
    intros Hin. apply elem_of_cons in Hin as [?|?]; [congruence|contradiction].
Qed.

Lemma mapM_raise {A B} (f : A -> result B) l e :
  mapM f l = Raise e -> exists x, x ∈ l /\ f x = Raise e.
Proof.
  induction l as [|x l IH]; simpl; [discriminate|].
  destruct (f x) as [y|e'] eqn:Hx; simpl.
  - destruct (mapM f l) as [ys|e'']; simpl; [discriminate|].
    intros [= <-]. destruct IH as (z & Hz & Hfz); [reflexivity|].
    exists z. split; [now right | exact Hfz].
  - intros [= <-]. exists x. split; [left | exact Hx].
Qed.

Lemma loop_body_preserves c col : preserves_frame c (loop_body c col).
Proof.
  unfold loop_body.
  repeat apply and_then_preserves; apply when_preserves; intros Hb;
    apply assign_apply_preserves;
    try (unfold touched; rewrite Hb; now rewrite ?orb_true_r);
    intros x y Hxy; [left | left | right]; exact Hxy.
Qed.

(** Why an assignment [df[col] = df[col].apply(f)] raises. *)
Lemma assign_apply_raise col f df e :
  snd (assign_apply col f df) = Raise e ->
  (e = KeyError col /\ col ∉ column_names df)
  \/ exists cells v, (col, cells) ∈ df /\ v ∈ cells /\ f v = Raise e.
Proof.
  unfold assign_apply.
  destruct (getitem df col) as [cells|e'] eqn:Hget; simpl.
  - destruct (mapM f cells) as [cells'|e''] eqn:Hmap; simpl; [discriminate|].
    intros [= <-]. right. apply mapM_raise in Hmap as (v & Hv & Hfv).
    exists cells, v. split; [now apply getitem_elem | now split].
  - intros [= <-]. left. now apply getitem_raise.
Qed.

Lemma and_then_raise s1 s2 df e :
  snd (and_then s1 s2 df) = Raise e ->
  snd (s1 df) = Raise e \/ snd (s2 (fst (s1 df))) = Raise e.
Proof.
  unfold and_then. destruct (s1 df) as [df1 [u|e1]]; simpl; auto.
Qed.

(** Why one pass of the loop body raises, in terms of the frame it
    started from. *)
Lemma loop_body_raise c col df e :
  snd (loop_body c col df) = Raise e ->
  (e = KeyError col /\ touched c col = true /\ col ∉ column_names df)
  \/ (e = AttributeError "replace"
      /\ py_in col (multi_label_cols c) = true
      /\ exists cells n, (col, cells) ∈ df /\ PyInt n ∈ cells).
Proof.
  unfold loop_body. intros H.
  apply and_then_raise in H as [H|H].
  { destruct (String.eqb col "Currency") eqn:Hb; [|discriminate].
    apply assign_apply_raise in H as [[-> Hnin]|(cells & v & _ & _ & Hv)].
    - left. unfold touched. now rewrite Hb.
    - now destruct v. }
  set (s1 := when (String.eqb col "Currency") _) in H.
  assert (Hk1 : frame_kept c df (fst (s1 df))).
  { apply when_preserves. intros Hb. apply assign_apply_preserves;
      [unfold touched; now rewrite Hb | intros x y Hxy; now left]. }
  apply and_then_raise in H as [H|H].
  { destruct (String.eqb col "Race") eqn:Hb; [|discriminate].
    apply assign_apply_raise in H as [[-> Hnin]|(cells & v & _ & _ & Hv)].
    - left. split; [reflexivity|]. split.
      + unfold touched. rewrite Hb. now rewrite orb_true_r.
      + now rewrite <- (frame_kept_names c _ _ Hk1).
    - now destruct v. }
  set (s2 := when (String.eqb col "Race") _) in H.
  assert (Hk2 : frame_kept c df (fst (s2 (fst (s1 df))))).
  { apply frame_kept_trans with (fst (s1 df)); [exact Hk1|].
    apply when_preserves. intros Hb. apply assign_apply_preserves;
      [unfold touched; rewrite Hb; now rewrite orb_true_r
      | intros x y Hxy; now left]. }
  destruct (py_in col (multi_label_cols c)) eqn:Hb; [|discriminate].
  apply assign_apply_raise in H as [[-> Hnin]|(cells & v & Hin & Hv & Hfv)].
  - left. split; [reflexivity|]. split.
    + unfold touched. rewrite Hb. now rewrite orb_true_r.
    + now rewrite <- (frame_kept_names c _ _ Hk2).
  - right. destruct v as [s|f|n]; try discriminate.
    injection Hfv as <-. split; [reflexivity|]. split; [reflexivity|].
    destruct (frame_kept_back c _ _ col cells Hk2 Hin) as (cells0 & Hin0 & Hc).
    destruct (no_int_back cells0 cells Hc) as [m Hm]; [now exists n|].
    now exists cells0, m.
Qed.

(** The same for the whole loop. *)
Lemma cleanup_df_raise_cases (c : columns) (headers : list string) (df : DataFrame) (e : exn) :
  snd (cleanup_df c headers df) = Raise e ->
  (exists col,
      e = KeyError col /\ col ∈ headers /\ touched c col = true
      /\ col ∉ column_names df)
  \/ (e = AttributeError "replace"
      /\ exists col cells n,
           col ∈ headers /\ py_in col (multi_label_cols c) = true
           /\ (col, cells) ∈ df /\ PyInt n ∈ cells).
Proof.
  rewrite cleanup_df_loop. revert df.
  induction headers as [|h hs IH]; intros df; [discriminate|].
  cbn [for_each]. intros H. apply and_then_raise in H as [H|H].
  - apply loop_body_raise in H
      as [(-> & Ht & Hnin)|(-> & Hm & cells & n & Hin & Hn)].
    + left. exists h. split; [reflexivity|]. split; [left|]. now split.
    + right. split; [reflexivity|]. exists h, cells, n.
      split; [left|]. now repeat split.
  - pose proof (loop_body_preserves c h df) as Hkept.
    apply IH in H as [(col & -> & Hin & Ht & Hnin)
                     |(-> & col & cells & n & Hin & Hm & Hcol & Hn)].
    + left. exists col. split; [reflexivity|]. split; [now right|].
      split; [exact Ht|]. now rewrite <- (frame_kept_names c _ _ Hkept).
    + right. split; [reflexivity|].
      destruct (frame_kept_back c _ _ col cells Hkept Hcol) as (cells0 & Hin0 & Hc).
      destruct (no_int_back cells0 cells Hc) as [m Hm0]; [now exists n|].
      exists col, cells0, m. split; [now right|]. now repeat split.
Qed.

(** X4. [cleanup_df] raises in two ways only: [KeyError] for a header
    it has a rule for (['Currency'], ['Race'] or a multi-label column)
    that is not a column of the frame, or [AttributeError] because the
    column of a multi-label header holds an integer. *)
Theorem cleanup_df_raises (c : columns) (headers : list string) (df : DataFrame) (e : exn) :
  snd (cleanup_df c headers df) = Raise e ->
  (exists col,
      e = KeyError col /\ col ∈ headers /\ touched c col = true
      /\ col ∉ column_names df)
  \/ (e = AttributeError "replace"
      /\ exists col cells n,
           col ∈ headers /\ py_in col (multi_label_cols c) = true
           /\ (col, cells) ∈ df /\ PyInt n ∈ cells).
Proof.
  intros H.
  destruct (cleanup_df_raise_cases c headers df e H) as [Hkey|Hattr];
    [left; exact Hkey | right; exact Hattr].
Qed.

Lemma cleanup_df_raises_witness :
  snd (cleanup_df Toy.three ["IDE"] [("IDE", [PyStr "Vim"; PyInt 3])])
  = Raise (AttributeError "replace")
  /\ ((exists col,
          AttributeError "replace" = KeyError col /\ col ∈ ["IDE"]
          /\ touched Toy.three col = true
          /\ col ∉ column_names [("IDE", [PyStr "Vim"; PyInt 3])])
      \/ (AttributeError "replace" = AttributeError "replace"
          /\ exists col cells n,
               col ∈ ["IDE"] /\ py_in col (multi_label_cols Toy.three) = true
               /\ (col, cells) ∈ [("IDE", [PyStr "Vim"; PyInt 3])]
               /\ PyInt n ∈ cells)).
Proof.
  split; [reflexivity|].
  apply (cleanup_df_raises Toy.three ["IDE"] [("IDE", [PyStr "Vim"; PyInt 3])]).
  reflexivity.
Defined.

(** X5. On a frame that has a column for every header [cleanup_df] has
    a rule for, and no integer in the column of a multi-label header,
    [cleanup_df] returns without raising. *)
Theorem cleanup_df_returns (c : columns) (headers : list string) (df : DataFrame) :
  ready c headers df -> snd (cleanup_df c headers df) = Ok tt.
Proof.
  intros [Hcols Hints].
  destruct (snd (cleanup_df c headers df)) as [[]|e] eqn:Hrun; [reflexivity|].
  exfalso.
  destruct (cleanup_df_raise_cases c headers df e Hrun)
    as [(col & _ & Hin & Ht & Hnin)|(_ & col & cells & n & Hin & Hm & Hcol & Hn)].
  - exact (Hnin (Hcols col Hin Ht)).
  - exact (Hints col cells (PyInt n) Hin Hm Hcol Hn eq_refl).
Qed.

Lemma cleanup_df_returns_witness :
  ready ToyMore.valid ToyMore.valid_headers ToyMore.valid_frame
  /\ snd (cleanup_df ToyMore.valid ToyMore.valid_headers ToyMore.valid_frame) = Ok tt.
Proof.
  assert (Hready : ready ToyMore.valid ToyMore.valid_headers ToyMore.valid_frame).
  { split.
    - intros col Hin _. revert col Hin. apply Forall_forall.
      refine (bool_decide_unpack _ _). vm_compute. exact I.
    - intros col cells v _ Hm Hcol Hv.
      assert (col = "Race") as ->.
      { unfold py_in in Hm. simpl in Hm. rewrite orb_false_r in Hm.
        now apply String.eqb_eq in Hm. }
      unfold ToyMore.valid_frame in Hcol.
      repeat (apply elem_of_cons in Hcol as [Hcol|Hcol]; [try discriminate|]);
        [|now apply elem_of_nil in Hcol].
      injection Hcol as ->.
      repeat (apply elem_of_cons in Hv as [->|Hv]; [discriminate|]).
      now apply elem_of_nil in Hv. }
  split; [exact Hready|].
  apply (cleanup_df_returns ToyMore.valid ToyMore.valid_headers ToyMore.valid_frame).
  exact Hready.
Defined.

Lemma mapM_id (l : list pyvalue) : mapM Ok l = Ok l.
Proof. induction l as [|x l IH]; simpl; [reflexivity | now rewrite IH]. Qed.

Lemma mapM_ext {A B} (f g : A -> result B) l :
  (forall x, f x = g x) -> mapM f l = mapM g l.
Proof.
  intros Hfg. induction l as [|x l IH]; simpl; [reflexivity|].
  now rewrite Hfg, IH.
Qed.

Lemma mapM_and_next f g (l l1 l2 : list pyvalue) :
  mapM f l = Ok l1 -> mapM g l1 = Ok l2 -> mapM (and_next f g) l = Ok l2.
Proof.
  revert l1 l2. induction l as [|x l IH]; intros l1 l2; simpl.
  - intros [= <-]. simpl. now intros [= <-].
  - unfold and_next at 1. destruct (f x) as [y|e]; simpl; [|discriminate].
    destruct (mapM f l) as [ys|e] eqn:Hl; simpl; [|discriminate].
    intros [= <-]. simpl.
    destruct (g y) as [z|e]; simpl; [|discriminate].
    destruct (mapM g ys) as [zs|e] eqn:Hys; simpl; [|discriminate].
    intros [= <-]. now rewrite (IH ys zs eq_refl Hys).
Qed.

Lemma column_names_setitem df col cells :
  column_names (setitem df col cells) = column_names df.
Proof.
  induction df as [|[name old] df IH]; simpl; [reflexivity|].
  destruct (String.eqb name col); simpl; [reflexivity | now rewrite IH].
Qed.

(** On a frame with distinct labels, [df[h] = new] replaces the cells
    of the one column [h], which are the cells [df[h]] gives. *)
Lemma setitem_lookup df h cs new :
  NoDup (column_names df) -> getitem df h = Ok cs ->
  forall i col cells,
    df !! i = Some (col, cells) ->
    (col = h -> cells = cs /\ setitem df h new !! i = Some (col, new))
    /\ (col <> h -> setitem df h new !! i = Some (col, cells)).
Proof.
  induction df as [|[name old] df IH]; intros Hnd Hget i col cells Hi;
    [discriminate|].
  simpl in Hnd. apply NoDup_cons in Hnd as [Hfresh Hnd].
  simpl in Hget |- *. destruct (String.eqb_spec name h) as [->|Hne].
  - injection Hget as ->. destruct i as [|i]; simpl in Hi |- *.
    + injection Hi as <- <-. split; [now split | congruence].
    + assert (col <> h).
      { intros ->. apply Hfresh. unfold column_names.
        apply (list_elem_of_fmap_2 fst df (h, cells)).
        eapply list_elem_of_lookup_2, Hi. }
      split; [contradiction | now intros _].
  - destruct i as [|i]; simpl in Hi |- *.
    + injection Hi as <- <-. split; [contradiction | now intros _].
    + apply (IH Hnd Hget i col cells Hi).
Qed.

Lemma rewrites_skip h : rewrites_column h Ok skip.
Proof.
  intros df df1 _ [= <-]. split; [reflexivity|].
  intros i col cells Hi. exists cells. split; [exact Hi|].
  split; [intros _; apply mapM_id | reflexivity].
Qed.

Lemma rewrites_assign h f : rewrites_column h f (assign_apply h f).
Proof.
  intros df df1 Hnd. unfold assign_apply.
  destruct (getitem df h) as [cs|e] eqn:Hget; simpl; [|discriminate].
  destruct (mapM f cs) as [new|e] eqn:Hmap; simpl; [|discriminate].
  intros [= <-]. split; [apply column_names_setitem|].
  intros i col cells Hi.
  destruct (setitem_lookup df h cs new Hnd Hget i col cells Hi) as [Heq Hne].
  destruct (decide (col = h)) as [->|Hcol].
  - destruct (Heq eq_refl) as [-> Hl]. exists new.
    split; [exact Hl|]. split; [now intros _ | contradiction].
  - exists cells. split; [now apply Hne|]. split; [contradiction | reflexivity].
Qed.

Lemma rewrites_when h (b : bool) f s :
  rewrites_column h f s -> rewrites_column h (guarded b f) (when b s).
Proof.
  intros Hs. destruct b; simpl.
  - intros df df1 Hnd Hrun. destruct (Hs df df1 Hnd Hrun) as [Hn Hc].
    split; [exact Hn|]. intros i col cells Hi.
    destruct (Hc i col cells Hi) as (cells1 & Hl & Heq & Hne).
    exists cells1. split; [exact Hl|]. split; [|exact Hne].
    intros Hcol. rewrite <- (Heq Hcol). now apply mapM_ext.
  - intros df df1 Hnd Hrun. destruct (rewrites_skip h df df1 Hnd Hrun) as [Hn Hc].
    split; [exact Hn|]. intros i col cells Hi.
    destruct (Hc i col cells Hi) as (cells1 & Hl & Heq & Hne).
    exists cells1. split; [exact Hl|]. split; [|exact Hne].
    intros Hcol. rewrite <- (Heq Hcol). now apply mapM_ext.
Qed.

Lemma rewrites_and_then h f g s1 s2 :
  rewrites_column h f s1 -> rewrites_column h g s2 ->
  rewrites_column h (and_next f g) (and_then s1 s2).
Proof.
  intros H1 H2 df df2 Hnd. unfold and_then.
  destruct (s1 df) as [df1 [[]|e]] eqn:Hrun1; [|discriminate].
  intros Hrun2.
  destruct (H1 df df1 Hnd Hrun1) as [Hn1 Hc1].
  assert (Hnd1 : NoDup (column_names df1)) by now rewrite Hn1.
  destruct (H2 df1 df2 Hnd1 Hrun2) as [Hn2 Hc2].
  split; [congruence|]. intros i col cells Hi.
  destruct (Hc1 i col cells Hi) as (cells1 & Hl1 & Heq1 & Hne1).
  destruct (Hc2 i col cells1 Hl1) as (cells2 & Hl2 & Heq2 & Hne2).
  exists cells2. split; [exact Hl2|]. split.
  - intros Hcol. now apply mapM_and_next with cells1; auto.
  - intros Hcol. rewrite (Hne2 Hcol). now apply Hne1.
Qed.

Lemma loop_body_rewrites c h : rewrites_column h (clean_cell c h) (loop_body c h).
Proof.
  unfold loop_body, clean_cell.
  repeat apply rewrites_and_then; apply rewrites_when, rewrites_assign.
Qed.

(** X6. When the headers are distinct, the labels of the frame are
    distinct and [cleanup_df] returns, the frame has the same columns in
    the same order, and each column is as follows: the column of a
    header has, in each row, the cell cleaned by [convert_to_ascii] if
    the header is ['Currency'], then by [convert_to_ascii] if it is
    ['Race'], then by [update_multi_label_cols] if it is a multi-label
    column (so a ['Race'] cell is stripped before its labels are
    joined); a column that is not a header is unchanged. *)
Theorem cleanup_df_columns (c : columns) (headers : list string) (df df' : DataFrame) :
  NoDup headers -> NoDup (column_names df) ->
  cleanup_df c headers df = (df', Ok tt) ->
  column_names df' = column_names df
  /\ forall i col cells,
       df !! i = Some (col, cells) ->
       exists cells',
         df' !! i = Some (col, cells')
         /\ (col ∈ headers -> mapM (clean_cell c col) cells = Ok cells')
         /\ (col ∉ headers -> cells' = cells).
Proof.
  rewrite cleanup_df_loop. revert df.
  induction headers as [|h hs IH]; intros df Hh Hnd.
  - intros [= <-]. split; [reflexivity|]. intros i col cells Hi.
    exists cells. split; [exact Hi|]. split; [|reflexivity].
    intros Hin. now apply elem_of_nil in Hin.
  - apply NoDup_cons in Hh as [Hfresh Hh]. cbn [for_each]. unfold and_then.
    destruct (loop_body c h df) as [df1 [[]|e]] eqn:Hbody; [|discriminate].
    intros Hrest.
    destruct (loop_body_rewrites c h df df1 Hnd Hbody) as [Hn1 Hc1].
    assert (Hnd1 : NoDup (column_names df1)) by now rewrite Hn1.
    destruct (IH df1 Hh Hnd1 Hrest) as [Hn2 Hc2].
    split; [congruence|]. intros i col cells Hi.
    destruct (Hc1 i col cells Hi) as (cells1 & Hl1 & Heq1 & Hne1).
    destruct (Hc2 i col cells1 Hl1) as (cells2 & Hl2 & Hin2 & Hnin2).
    exists cells2. split; [exact Hl2|]. split.
    + intros Hin. apply elem_of_cons in Hin as [->|Hin].
      * rewrite (Hnin2 Hfresh). now apply Heq1.
      * assert (col <> h) by (intros ->; contradiction).
        rewrite <- (Hne1 H). now apply Hin2.
    + intros Hnin. apply not_elem_of_cons in Hnin as [Hcol Hnin].
      rewrite (Hnin2 Hnin). now apply Hne1.
Qed.

Lemma cleanup_df_columns_witness :
  cleanup_df ToyMore.valid ToyMore.valid_headers ToyMore.valid_frame
  = ([("Respondent", [PyInt 1; PyInt 2]);
      ("Professional", [PyStr "Student"; PyFloat nan]);
      ("Race", [PyStr "East_Asian White"; PyStr " x"]);
      ("Salary", [PyFloat 42; PyFloat nan])], Ok tt)
  /\ mapM (clean_cell ToyMore.valid "Race")
       [PyStr "East Asian; White"; PyStr (String ";" (String (ascii_of_nat 233) " x"))]
     = Ok [PyStr "East_Asian White"; PyStr " x"].
Proof.
  split; [reflexivity|].
  assert (Hh : NoDup ToyMore.valid_headers)
    by (refine (bool_decide_unpack _ _); vm_compute; exact I).
  assert (Hnd : NoDup (column_names ToyMore.valid_frame))
    by (refine (bool_decide_unpack _ _); vm_compute; exact I).
  destruct (cleanup_df_columns ToyMore.valid ToyMore.valid_headers
              ToyMore.valid_frame _ Hh Hnd eq_refl) as [_ Hcols].
  destruct (Hcols 2 "Race" _ eq_refl) as (cells' & Hl & Hin & _).
  injection Hl as <-. apply Hin.
  apply list_elem_of_In. simpl. tauto.
Defined.

(** ** Further properties of the split, the header file and the emitter *)

Lemma merge_select {A} (mask : list bool) (l : list A) :
  length mask = length l ->
  merge mask (select mask l) (select (List.map negb mask) l) = l.
Proof.
  revert l. induction mask as [|b mask IH]; intros [|x l] Hlen;
    try discriminate; [reflexivity|].
  injection Hlen as Hlen. destruct b; simpl; now rewrite IH.
Qed.

Lemma select_sublist {A} (mask : list bool) (l : list A) :
  select mask l `sublist_of` l.
Proof.
  revert l. induction mask as [|b mask IH]; intros [|x l]; simpl;
    try apply sublist_nil_l.
  destruct b; [apply sublist_skip | apply sublist_cons]; apply IH.
Qed.

Lemma select_lengths {A} (mask : list bool) (l : list A) :
  length mask = length l ->
  length (select mask l) + length (select (List.map negb mask) l) = length l.
Proof.
  revert l. induction mask as [|b mask IH]; intros [|x l] Hlen;
    try discriminate; [reflexivity|].
  injection Hlen as Hlen. specialize (IH l Hlen). destruct b; simpl; lia.
Qed.

Lemma random_index_length w n : length (random_index w n) = n.
Proof. unfold random_index. now rewrite length_map, length_seq. Qed.

Lemma mask_rows_lookup mask (df : DataFrame) i col cells :
  df !! i = Some (col, cells) ->
  mask_rows mask df !! i = Some (col, select mask cells).
Proof.
  revert i. induction df as [|a df IH]; intros [|i] Hi; try discriminate.
  - injection Hi as ->. reflexivity.
  - now apply IH.
Qed.

Lemma np_array_nonempty w n :
  n <> 0 -> np_array (random_index w n) = BoolArray (random_index w n).
Proof. destruct n; [congruence | reflexivity]. Qed.

(** A frame without rows is left as it is by an empty boolean array. *)
Lemma mask_rows_no_rows (df : DataFrame) :
  rectangular df = true -> nrows df = 0 -> mask_rows [] df = df.
Proof.
  unfold rectangular. generalize (nrows df). intros n Hrect ->.
  induction df as [|[col cells] df IH]; [reflexivity|].
  cbn [List.forallb snd] in Hrect. apply andb_true_iff in Hrect as [Hc Hrect].
  apply Nat.eqb_eq in Hc. destruct cells; [|discriminate].
  simpl. f_equal. now apply IH.
Qed.

(** X7. On a frame whose columns all have as many cells as the frame
    has rows, and that has at least one row, the split of cells 14 and
    15 loses and duplicates nothing, whatever the random draws: in every
    column the train cells and the eval cells are taken in row order,
    their numbers add up to the number of rows, and putting them back by
    the draws gives the column again.  On a frame without rows,
    [np.array([])] is not a boolean array: [df_train] has no column at
    all, and [df_eval] is the frame itself. *)
Theorem split_is_a_partition (w : world) (df : DataFrame) :
  rectangular df = true ->
  let x := random_index w (nrows df) in
  (nrows df <> 0 ->
   forall i col cells,
     df !! i = Some (col, cells) ->
     exists train eval,
       fst (split w df) !! i = Some (col, train)
       /\ snd (split w df) !! i = Some (col, eval)
       /\ train `sublist_of` cells /\ eval `sublist_of` cells
       /\ length train + length eval = nrows df
       /\ merge x train eval = cells)
  /\ (nrows df = 0 -> split w df = ([], df)).
Proof.
  intros Hrect x. split.
  - intros Hrows i col cells Hi.
    assert (Hlen : length cells = nrows df).
    { unfold rectangular in Hrect. rewrite List.forallb_forall in Hrect.
      apply Nat.eqb_eq, (Hrect (col, cells)), list_elem_of_In.
      eapply list_elem_of_lookup_2, Hi. }
    assert (Hx : length x = length cells).
    { unfold x. now rewrite random_index_length. }
    unfold split. rewrite (np_array_nonempty w (nrows df) Hrows).
    cbn [fst snd frame_getitem np_logical_not]. fold x.
    exists (select x cells), (select (List.map negb x) cells).
    split; [now apply mask_rows_lookup|].
    split; [now apply mask_rows_lookup|].
    split; [apply select_sublist|]. split; [apply select_sublist|].
    split; [rewrite <- Hlen; now apply select_lengths | now apply merge_select].
  - intros Hrows. unfold split. rewrite Hrows.
    cbn [random_index List.seq List.map np_array frame_getitem np_logical_not].
    now rewrite mask_rows_no_rows.
Qed.

Lemma split_is_a_partition_witness :
  rectangular ToyMore.valid_frame = true
  /\ nrows ToyMore.valid_frame <> 0
  /\ exists train eval,
       fst (split ToyMore.full_world ToyMore.valid_frame) !! 0
       = Some ("Respondent", train)
       /\ length train + length eval = 2
       /\ merge (random_index ToyMore.full_world 2) train eval = [PyInt 1; PyInt 2].
Proof.
  split; [reflexivity|]. split; [discriminate|].
  destruct (split_is_a_partition ToyMore.full_world ToyMore.valid_frame eq_refl)
    as [Hrows _].
  destruct (Hrows ltac:(discriminate) 0 "Respondent" [PyInt 1; PyInt 2] eq_refl)
    as (train & eval & Ht & _ & _ & _ & Hlen & Hmerge).
  exists train, eval. split; [exact Ht|]. split; [exact Hlen | exact Hmerge].
Defined.




(** Whatever the loop does, an entry of the dictionary was there before
    or is the transform the chain of tests gives a header. *)
Lemma build_transforms_lookup c headers :
  forall (acc : gmap string string) h t,
    fst (build_transforms c headers acc) !! h = Some t ->
    acc !! h = Some t \/ (h ∈ headers /\ transform_of c h = Some t).
Proof.
  induction headers as [|h0 hs IH]; intros acc h t; cbn [build_transforms].
  - now left.
  - destruct (transform_of c h0) as [t0|] eqn:Ht0; [|now left].
    intros H. apply IH in H as [H|[Hin Ht]].
    + destruct (decide (h = h0)) as [->|Hne].
      * rewrite lookup_insert_eq in H. injection H as ->.
        right. split; [left | exact Ht0].
      * rewrite lookup_insert_ne in H by congruence. now left.
    + right. split; [now right | exact Ht].
Qed.

(** X9. The two artifacts agree on every header, whether or not the
    table is a partition and whether or not the transforms loop breaks:
    each directive in the dictionary belongs to a header, and that
    header's schema entries have type FLOAT exactly when the directive
    is [scale], INTEGER exactly when it is [key], and STRING for
    [target], [bag_of_words] and [one_hot]. *)
Theorem artifacts_agree (c : columns) (headers : list string) (h t : string) :
  fst (build_transforms c headers ∅) !! h = Some t ->
  h ∈ headers
  /\ (forall i, headers !! i = Some h ->
        exists ty,
          build_schema c headers [] !! i = Some {| name := h; type := ty |}
          /\ (ty = "FLOAT" <-> t = "scale")
          /\ (ty = "INTEGER" <-> t = "key")
          /\ (ty = "STRING" <-> t = "target" \/ t = "bag_of_words" \/ t = "one_hot")).
Proof.
  intros Hl. apply build_transforms_lookup in Hl as [Hl|[Hin Ht]];
    [now rewrite lookup_empty in Hl|].
  split; [exact Hin|]. intros i Hi.
  exists (type (schema_entry_of c h)).
  rewrite (build_schema_lookup c headers i h Hi).
  split; [f_equal; unfold schema_entry_of;
          destruct (py_in h (numerical_cols c)); [reflexivity|];
          destruct (py_in h (key_cols c)); reflexivity|].
  revert Ht. unfold schema_entry_of, transform_of.
  destruct (py_in h (numerical_cols c)); [intros [= <-]|].
  { cbn [type]. repeat split; try discriminate; try reflexivity.
    intros [H|[H|H]]; discriminate. }
  destruct (py_in h (key_cols c)); [intros [= <-]|].
  { cbn [type]. repeat split; try discriminate; try reflexivity.
    intros [H|[H|H]]; discriminate. }
  cbn [type].
  destruct (is_target c h); [intros [= <-]|].
  { repeat split; try discriminate; auto. }
  destruct (py_in h (multi_label_cols c)); [intros [= <-]|].
  { repeat split; try discriminate; auto. }
  destruct (py_in h (single_label_cols c)); [intros [= <-]|discriminate].
  repeat split; try discriminate; auto.
Qed.

Lemma artifacts_agree_witness :
  fst (build_transforms Toy.miscounted Toy.miscounted_headers ∅) !! "Respondent"
  = Some "key"
  /\ "Respondent" ∈ Toy.miscounted_headers.
Proof.
  split; [reflexivity|].
  apply (artifacts_agree Toy.miscounted Toy.miscounted_headers "Respondent" "key").
  reflexivity.
Defined.

Lemma transform_of_encodes c h t :
  transform_of c h = Some t -> json_encodes t = true.
Proof.
  unfold transform_of.
  destruct (py_in h (numerical_cols c)); [now intros [= <-]|].
  destruct (py_in h (key_cols c)); [now intros [= <-]|].
  destruct (is_target c h); [now intros [= <-]|].
  destruct (py_in h (multi_label_cols c)); [now intros [= <-]|].
  destruct (py_in h (single_label_cols c)); [now intros [= <-]|discriminate].
Qed.

(** [json.dumps] can encode a dictionary of the transforms of the
    headers [l] exactly when it can encode these headers. *)
Lemma transforms_encode c (t : gmap string string) (l : list string) :
  (forall x, x ∈ l -> is_Some (transform_of c x)) ->
  (forall x, t !! x = if decide (x ∈ l) then transform_of c x else None) ->
  List.forallb (fun kv => json_encodes (fst kv) && json_encodes (snd kv))
    (map_to_list t)
  = List.forallb json_encodes l.
Proof.
  intros Hall Hl. apply eq_true_iff_eq.
  rewrite !List.forallb_forall. split.
  - intros H x Hx. apply list_elem_of_In in Hx.
    destruct (Hall x Hx) as [v Hv].
    assert (Hin : (x, v) ∈ map_to_list t).
    { apply elem_of_map_to_list. rewrite Hl. now rewrite decide_True. }
    apply list_elem_of_In, H in Hin. now apply andb_true_iff in Hin as [Hk _].
  - intros H [k v] Hkv. apply list_elem_of_In, elem_of_map_to_list in Hkv.
    rewrite Hl in Hkv. destruct (decide (k ∈ l)) as [Hk|_]; [|discriminate].
    cbn [fst snd]. rewrite (transform_of_encodes c k v Hkv), andb_true_r.
    now apply H, list_elem_of_In.
Qed.

(** X10. The transforms loop stops at the first header that matches no
    test: cell 18 prints one error line naming it, and the dictionary
    it has built has exactly the headers before it as keys, each with the
    transform the tests give it; the headers after it are left out even
    when they are registered.  The cell then writes this dictionary and
    raises nothing, unless [json.dumps] cannot decode one of these keys
    as UTF-8: then it raises [UnicodeDecodeError] and leaves the file
    empty. *)
Theorem transforms_stop_at_first_unknown (c : columns) (pre : list string)
    (u : string) (post : list string) :
  (forall x, x ∈ pre -> is_Some (transform_of c x)) ->
  transform_of c u = None ->
  exists t : gmap string string,
    (forall x, t !! x = if decide (x ∈ pre) then transform_of c x else None)
    /\ emit_transforms c (pre ++ u :: post)
       = if List.forallb json_encodes pre
         then ([EvPrint ("Error: " ++ u ++ " is an unknown label")%string;
                EvWrite transform_path (TransformsJson t)], Ok tt)
         else ([EvPrint ("Error: " ++ u ++ " is an unknown label")%string;
                EvWrite transform_path EmptyFile], Raise UnicodeDecodeError).
Proof.
  intros Hpre Hu.
  destruct (build_transforms_break c pre u post ∅ Hpre Hu) as [Hp Hl].
  unfold emit_transforms.
  destruct (build_transforms c (pre ++ u :: post) ∅) as [t printed].
  simpl in Hp, Hl. subst printed. exists t.
  assert (Hkeys : forall x, t !! x = if decide (x ∈ pre) then transform_of c x else None).
  { intros x. rewrite Hl. destruct (decide (x ∈ pre)); [reflexivity|].
    apply lookup_empty. }
  split; [exact Hkeys|].
  rewrite (transforms_encode c t pre Hpre Hkeys).
  now destruct (List.forallb json_encodes pre).
Qed.

Lemma transforms_stop_at_first_unknown_witness :
  transform_of Toy.unknown_label "Salary" = Some "scale"
  /\ exists t : gmap string string,
       emit_transforms Toy.unknown_label (["Respondent"] ++ "ShoeSize" :: ["Salary"])
       = ([EvPrint "Error: ShoeSize is an unknown label";
           EvWrite transform_path (TransformsJson t)], Ok tt)
       /\ t !! "Salary" = None.
Proof.
  split; [reflexivity|].
  destruct (transforms_stop_at_first_unknown Toy.unknown_label
              ["Respondent"] "ShoeSize" ["Salary"]) as (t & Hl & Hrun).
  - intros x Hx. apply list_elem_of_singleton in Hx as ->. now exists "key".
  - reflexivity.
  - exists t. split; [exact Hrun|]. rewrite Hl. reflexivity.
Defined.

Lemma written_paths_app t1 t2 :
  written_paths (t1 ++ t2) = written_paths t1 ++ written_paths t2.
Proof. unfold written_paths. apply List.flat_map_app. Qed.

Lemma written_paths_prints lines : written_paths (List.map EvPrint lines) = [].
Proof. induction lines as [|l lines IH]; [reflexivity | exact IH]. Qed.

Lemma check_input_files_writes w :
  written_paths (trace (check_input_files w)) = [].
Proof. unfold check_input_files. now destruct (_ || _). Qed.

Lemma read_headers_writes w : written_paths (trace (read_headers w)) = [].
Proof.
  unfold read_headers. destruct (schema_csv w) as [[|r rows]|]; reflexivity.
Qed.

Lemma read_csv_writes w names : written_paths (trace (read_csv w names)) = [].
Proof. unfold read_csv. now destruct (results_csv w). Qed.

Lemma run_cleanup_writes c headers df :
  written_paths (trace (run_cleanup c headers df)) = [].
Proof.
  unfold run_cleanup. destruct (cleanup_df c headers df) as [df' [[]|e]]; reflexivity.
Qed.

(** When [json.dumps] can encode every header, cell 18 writes its
    file: the keys of the dictionary are headers. *)
Lemma emit_transforms_writes c headers :
  List.forallb json_encodes headers = true ->
  outcome (emit_transforms c headers) = Ok tt
  /\ written_paths (trace (emit_transforms c headers)) = [transform_path].
Proof.
  intros Henc. unfold emit_transforms.
  pose proof (build_transforms_lookup c headers ∅) as Hlook.
  destruct (build_transforms c headers ∅) as [t printed]. cbn [fst] in Hlook.
  assert (List.forallb (fun kv => json_encodes (fst kv) && json_encodes (snd kv))
            (map_to_list t) = true) as ->.
  { rewrite List.forallb_forall in Henc |- *. intros [k v] Hkv.
    apply list_elem_of_In, elem_of_map_to_list in Hkv.
    apply Hlook in Hkv as [Hkv|[Hin Ht]]; [now rewrite lookup_empty in Hkv|].
    cbn [fst snd]. rewrite (transform_of_encodes c k v Ht), andb_true_r.
    now apply Henc, list_elem_of_In. }
  split; [reflexivity|]. cbn [trace fst].
  now rewrite written_paths_app, written_paths_prints.
Qed.

Lemma nb_bind_split {A B} (m : NB A) (k : A -> NB B) :
  nb_bind m k
  = match outcome m with
    | Ok a => (trace m ++ trace (k a), outcome (k a))
    | Raise e => (trace m, Raise e)
    end.
Proof. destruct m as [t [a|e]]; [apply nb_bind_ok | reflexivity]. Qed.

(** X11. A run of the notebook (its cells run top to bottom, stopping
    at the first exception) ends in one of three ways.  It stops with an
    exception before anything has been written; or it has written
    [train.csv] and [eval.csv] and stops in cell 17 with
    [UnicodeDecodeError], [json.dumps] failing on a header and
    [schema.json] left empty; or it ends normally and has written
    [train.csv], [eval.csv], [schema.json] and [transforms.json], in
    that order and each once. *)
Theorem notebook_writes_in_order (c : columns) (w : world) :
  (exists e, outcome (notebook c w) = Raise e
             /\ written_paths (trace (notebook c w)) = [])
  \/ (outcome (notebook c w) = Raise UnicodeDecodeError
      /\ written_paths (trace (notebook c w))
         = [train_data_path; eval_data_path; schema_path]
      /\ EvWrite schema_path EmptyFile ∈ trace (notebook c w))
  \/ (outcome (notebook c w) = Ok tt
      /\ written_paths (trace (notebook c w))
         = [train_data_path; eval_data_path; schema_path; transform_path]).
Proof.
  unfold notebook, emit, lift.
  rewrite nb_bind_ok, check_input_files_ok, nb_bind_ok.
  pose proof (check_input_files_writes w) as Hcheck.
  pose proof (read_headers_writes w) as Hread.
  rewrite nb_bind_split.
  destruct (read_headers w) as [t1 [headers|e]]; cbn [trace outcome fst snd] in *.
  2:{ left. exists e. split; [reflexivity|].
      now rewrite !written_paths_app, ?Hcheck, ?Hread. }
  rewrite nb_bind_split. cbn [trace outcome fst snd].
  destruct (check_column_count c headers) as [[]|e].
  2:{ left. exists e. split; [reflexivity|].
      now rewrite !written_paths_app, ?Hcheck, ?Hread. }
  rewrite nb_bind_split.
  pose proof (read_csv_writes w headers) as Hcsv.
  destruct (read_csv w headers) as [t2 [df|e]]; cbn [trace outcome fst snd] in *.
  2:{ left. exists e. split; [reflexivity|].
      now rewrite !written_paths_app, ?Hcheck, ?Hread, ?Hcsv. }
  rewrite nb_bind_split.
  pose proof (run_cleanup_writes c headers df) as Hclean.
  destruct (run_cleanup c headers df) as [t3 [df'|e]]; cbn [trace outcome fst snd] in *.
  2:{ left. exists e. split; [reflexivity|].
      now rewrite !written_paths_app, ?Hcheck, ?Hread, ?Hcsv, ?Hclean. }
  right. unfold split_and_save, emit.
  destruct (split w df') as [df_train df_eval].
  repeat (rewrite nb_bind_ok; cbn [trace outcome fst snd]).
  rewrite nb_bind_split, emit_schema_cases.
  destruct (List.forallb json_encodes headers) eqn:Henc; cbn [trace outcome fst snd].
  - right. destruct (emit_transforms_writes c headers Henc) as [Hout Hwr].
    split; [exact Hout|].
    rewrite !written_paths_app, ?Hcheck, ?Hread, ?Hcsv, ?Hclean, ?Hwr.
    reflexivity.
  - left. split; [reflexivity|]. split.
    + rewrite !written_paths_app, ?Hcheck, ?Hread, ?Hcsv, ?Hclean. reflexivity.
    + rewrite !elem_of_app. do 5 right.
      rewrite !elem_of_cons. right. right. now left.
Qed.

Lemma notebook_writes_in_order_witness :
  outcome (notebook ToyMore.valid ToyMore.full_world) = Ok tt
  /\ written_paths (trace (notebook ToyMore.valid ToyMore.full_world))
     = [train_data_path; eval_data_path; schema_path; transform_path].
Proof.
  destruct (notebook_writes_in_order ToyMore.valid ToyMore.full_world)
    as [(e & He & _)|[(He & _)|Hok]]; [| |exact Hok].
  - vm_compute in He. discriminate.
  - vm_compute in He. discriminate.
Defined.

Lemma none_in_all_columns c : None ∈ all_columns c -> target_col c = None.
Proof.
  unfold all_columns. rewrite !elem_of_app, list_elem_of_singleton.
  intros [H|[H|[H|[H|H]]]]; [| | | |congruence];
    apply list_elem_of_In, List.in_map_iff in H as (x & Hx & _); discriminate.
Qed.

(** X12. The column-count check passes on every table that registers
    each header once and nothing else: if the headers are distinct, no
    column is registered twice (in one list or in two), a target is set,
    and the registered columns are exactly the headers, the [assert] of
    cell 12 holds. *)
Theorem check_accepts_exact_registration (c : columns) (headers : list string) :
  NoDup headers -> NoDup (all_columns c) ->
  target_col c <> None ->
  (forall h, Some h ∈ all_columns c <-> h ∈ headers) ->
  check_column_count c headers = Ok tt.
Proof.
  intros Hh Hc Ht Hsame.
  assert (Hperm : all_columns c ≡ₚ Some <$> headers).
  { apply NoDup_Permutation; [exact Hc | |].
    - apply NoDup_fmap_2; [|exact Hh]. intros x y. congruence.
    - intros [h|].
      + rewrite Hsame. split.
        * intros Hin. now apply list_elem_of_fmap_2.
        * intros Hin. apply list_elem_of_fmap in Hin as (y & [= ->] & Hy). exact Hy.
      + split.
        * intros Hin. now apply none_in_all_columns in Hin.
        * intros Hin. apply list_elem_of_fmap in Hin as (y & Hy & _). discriminate. }
  unfold check_column_count.
  rewrite (Permutation_length Hperm), length_fmap, Nat.eqb_refl. reflexivity.
Qed.

Lemma check_accepts_exact_registration_witness :
  check_column_count ToyMore.valid ToyMore.valid_headers = Ok tt.
Proof.
  apply check_accepts_exact_registration.
  - refine (bool_decide_unpack _ _). vm_compute. exact I.
  - refine (bool_decide_unpack _ _). vm_compute. exact I.
  - discriminate.
  - intros h. unfold all_columns, ToyMore.valid, ToyMore.valid_headers. simpl.
    rewrite !elem_of_cons, !elem_of_nil. split; intros H.
    + repeat (destruct H as [[= ->]|H]; [tauto|]). contradiction.
    + repeat (destruct H as [->|H]; [tauto|]). contradiction.
Defined.
